(** * MCP study client: request lifecycle and handshake of the JSON-RPC client

    A shallow embedding of the [Client] class of the stdio client
    (fields [serverProcess], [nextRequestId], [_responseHandlers],
    [isConnected]; methods [connect], [handleServerOutput], [request],
    [notification], [initialize], [listTools], [disconnect]) together with
    the listeners it attaches to the child process and the [SIGINT] handler
    of [main].

    Conventions of the embedding.
    - Text (a [Buffer] decoded by [toString()], a JS string) is a [string]
      of UTF-8 bytes.
    - A JS number is written [JNumber m e] and stands for [m * 10^e]; every
      finite double has such a form, and [JInfinity] is what [JSON.parse]
      makes of a literal beyond the doubles.  Request identifiers are
      integers ([Z]); [nextRequestId++] is exact on them below 2^53, far out
      of reach of a session that starts at 1.
    - Console output is not part of the observable behaviour, except that a
      conversion to text which throws inside a logging statement is kept,
      because the exception changes the control flow.
    - The built-ins [JSON.parse] and [Number::toString] are taken through
      the interface [ECMAScript]; a reference instance is given and used for
      the concrete scenarios. *)

From Stdlib Require Import ZArith Ascii Lia DecimalString.
From stdpp Require Import base option list sorting strings gmap fin_maps.

Set Warnings "-register-all".
Open Scope Z_scope.

(** ** JS values coming from [JSON.parse] *)

Inductive json : Type :=
  | JNull
  | JBool (b : bool)
  | JNumber (m e : Z)
  | JString (s : string)
  | JArray (items : list json)
  | JObject (fields : list (string * json))
  | JInfinity (negative : bool).

(** A JS value where [undefined] is possible: [None] is [undefined]. *)
Abbreviation value := (option json).
Abbreviation undefined := (@None json).

Module Js.

(** Own data property [k] of a parsed object, in insertion order. *)
Fixpoint own (fields : list (string * json)) (k : string) : value :=
  match fields with
  | [] => undefined
  | (k', v) :: rest => if String.eqb k' k then Some v else own rest k
  end.

(** [v.k] for a key that no prototype defines ([id], [error], [result],
    [message], [code], [protocolVersion], [capabilities], [serverInfo],
    [name], [version]).  Reading a property of [null] or [undefined] throws
    a [TypeError], which is the outer [None]. *)
Definition get (v : value) (k : string) : option value :=
  match v with
  | None | Some JNull => None
  | Some (JObject fields) => Some (own fields k)
  | Some _ => Some undefined
  end.

(** The integer a number denotes, if it denotes one. *)
Definition integer (m e : Z) : option Z :=
  if 0 <=? e then Some (m * 10 ^ e)
  else if m mod 10 ^ (- e) =? 0 then Some (m / 10 ^ (- e)) else None.

(** [ToBoolean]. *)
Definition truthy (v : value) : bool :=
  match v with
  | None | Some JNull => false
  | Some (JBool b) => b
  | Some (JNumber m _) => negb (m =? 0)
  | Some (JString s) => negb (String.eqb s "")
  | Some (JArray _) | Some (JObject _) | Some (JInfinity _) => true
  end.

End Js.

(** ** Built-ins used by the client *)

Class ECMAScript := {
  (** [JSON.parse(text)]; [None] when it throws a [SyntaxError]. *)
  JSON_parse : string -> option json;
  (** [Number::toString] of the number [m * 10^e]. *)
  Number_toString : Z -> Z -> string
}.

Definition dquote : ascii := ascii_of_nat 34.
Definition backslash : ascii := ascii_of_nat 92.

(** Concatenation with a separator, as [Array.prototype.join]. *)
Fixpoint join (sep : string) (parts : list string) : string :=
  match parts with
  | [] => ""
  | [s] => s
  | s :: rest => s +:+ sep +:+ join sep rest
  end.

Section Builtins.
Context `{ECMAScript}.

(** [ToString(v)] as performed by a template literal.  An ordinary object
    is converted by [Object.prototype.toString] unless it has an own
    property [toString], which coming from JSON is never callable: the
    conversion then falls through [valueOf] and throws a [TypeError]
    ([None]).  An array is joined with commas, [null] elements giving the
    empty string. *)
Fixpoint to_string (v : json) : option string :=
  match v with
  | JNull => Some "null"
  | JBool true => Some "true"
  | JBool false => Some "false"
  | JNumber m e => Some (Number_toString m e)
  | JString s => Some s
  | JArray items =>
      join "," <$> mapM (fun x => match x with
                                  | JNull => Some ""
                                  | _ => to_string x
                                  end) items
  | JObject fields =>
      match Js.own fields "toString" with
      | Some _ => None
      | None => Some "[object Object]"
      end
  | JInfinity false => Some "Infinity"
  | JInfinity true => Some "-Infinity"
  end.

Definition ToString (v : value) : option string :=
  match v with
  | None => Some "undefined"
  | Some j => to_string j
  end.

End Builtins.

(** ** Text *)

Module Text.
Local Open Scope nat_scope.

Definition bytes (codes : list nat) : string :=
  foldr (fun n s => String (ascii_of_nat n) s) "" codes.

(** The white space and line terminators removed by [String.prototype.trim],
    in UTF-8: TAB, LF, VT, FF, CR, SP, U+00A0, U+1680, U+2000 to U+200A,
    U+2028, U+2029, U+202F, U+205F, U+3000 and U+FEFF. *)
Definition white_space : list string :=
  (bytes <$> [[9]; [10]; [11]; [12]; [13]; [32]; [194; 160]; [225; 154; 128]])
  ++ ((fun n => bytes [226; 128; n]) <$> seq 128 11)
  ++ (bytes <$> [[226; 128; 168]; [226; 128; 169]; [226; 128; 175];
                 [226; 129; 159]; [227; 128; 128]; [239; 187; 191]]).

Fixpoint drop (n : nat) (s : string) : string :=
  match n, s with
  | S n', String _ s' => drop n' s'
  | _, _ => s
  end.

Definition startsWith (s pre : string) : bool := String.prefix pre s.

Definition endsWith (s suf : string) : bool :=
  String.prefix (String.rev suf) (String.rev s).

(** Removes leading members of [ws], with fuel the length of the text. *)
Fixpoint strip (ws : list string) (fuel : nat) (s : string) : string :=
  match fuel with
  | O => s
  | S fuel' =>
      match List.find (startsWith s) ws with
      | Some w =>
          match w with
          | "" => s
          | _ => strip ws fuel' (drop (String.length w) s)
          end
      | None => s
      end
  end.

Definition trimStart (s : string) : string :=
  strip white_space (String.length s) s.

Definition trimEnd (s : string) : string :=
  String.rev (strip (String.rev <$> white_space) (String.length s) (String.rev s)).

Definition trim (s : string) : string := trimEnd (trimStart s).

(** Writes a text with apostrophes where the wire has double quotes. *)
Fixpoint wire (s : string) : string :=
  match s with
  | "" => ""
  | String a s' => String (if Ascii.eqb a "'" then dquote else a) (wire s')
  end.

(** Decimal numeral of an integer. *)
Definition decimal (z : Z) : string := NilZero.string_of_int (Z.to_int z).

End Text.

(** ** [JSON.stringify] on the client's own messages *)

Section Stringify.
Context `{ECMAScript}.

Definition hex_digit (n : nat) : ascii :=
  ascii_of_nat (if Nat.ltb n 10 then 48 + n else 87 + n)%nat.

(** [QuoteJSONString]. *)
Fixpoint quote_chars (s : string) : string :=
  match s with
  | "" => ""
  | String a rest =>
      let n := nat_of_ascii a in
      (if Ascii.eqb a dquote then String backslash (String dquote "")
       else if Ascii.eqb a backslash then String backslash (String backslash "")
       else if Nat.eqb n 8 then String backslash "b"
       else if Nat.eqb n 9 then String backslash "t"
       else if Nat.eqb n 10 then String backslash "n"
       else if Nat.eqb n 12 then String backslash "f"
       else if Nat.eqb n 13 then String backslash "r"
       else if Nat.ltb n 32 then
         String backslash
           (String "u" (String "0" (String "0"
             (String (hex_digit (Nat.div n 16))
               (String (hex_digit (Nat.modulo n 16)) "")))))
       else String a "") +:+ quote_chars rest
  end.

Definition quote (s : string) : string :=
  String dquote (quote_chars s +:+ String dquote "").

(** Properties are written in insertion order; the client's messages have
    no integer-like keys, which [JSON.stringify] would move to the front. *)
Fixpoint JSON_stringify (v : json) : string :=
  match v with
  | JNull => "null"
  | JBool true => "true"
  | JBool false => "false"
  | JNumber m e => Number_toString m e
  | JString s => quote s
  | JArray items => "[" +:+ join "," (JSON_stringify <$> items) +:+ "]"
  | JObject fields =>
      "{" +:+ join "," ((fun kv => quote kv.1 +:+ ":" +:+ JSON_stringify kv.2)
                          <$> fields) +:+ "}"
  | JInfinity _ => "null"
  end.

End Stringify.

(** ** The client *)

(** A handle on a child process ([ChildProcessWithoutNullStreams]). *)
Definition proc := nat.

(** The async method whose promise a registered callback settles:
    [connect] (through [initialize]) or [listTools]. *)
Inductive awaiter := AwaitConnect | AwaitListTools.

#[export] Instance awaiter_eq_dec : EqDecision awaiter.
Proof. solve_decision. Defined.

Inductive exn :=
  | Error (message : string)
  | TypeError.

Inductive outcome :=
  | Fulfilled (v : value)
  | Rejected (e : exn).

(** What a call hands back: a promise already rejected, a promise settled
    later by the response to request [id], or a promise nothing settles. *)
Inductive reply :=
  | Failed (e : exn)
  | Awaiting (id : Z)
  | Unsettled.

(** Effects on the outside of the client. *)
Inductive effect :=
  | Listen (p : proc)
  | Write (p : proc) (bytes : string)
  | Settle (a : awaiter) (id : Z) (o : outcome)
  | Kill (p : proc).

Record Client := {
  serverProcess : option proc;
  nextRequestId : Z;
  _responseHandlers : gmap Z awaiter;
  isConnected : bool
}.

(** [new Client()]. *)
Definition newClient : Client :=
  {| serverProcess := None; nextRequestId := 1;
     _responseHandlers := ∅; isConnected := false |}.

Definition set_serverProcess (p : option proc) (c : Client) : Client :=
  {| serverProcess := p; nextRequestId := nextRequestId c;
     _responseHandlers := _responseHandlers c; isConnected := isConnected c |}.

Definition set_nextRequestId (n : Z) (c : Client) : Client :=
  {| serverProcess := serverProcess c; nextRequestId := n;
     _responseHandlers := _responseHandlers c; isConnected := isConnected c |}.

Definition set_responseHandlers (m : gmap Z awaiter) (c : Client) : Client :=
  {| serverProcess := serverProcess c; nextRequestId := nextRequestId c;
     _responseHandlers := m; isConnected := isConnected c |}.

Definition set_isConnected (b : bool) (c : Client) : Client :=
  {| serverProcess := serverProcess c; nextRequestId := nextRequestId c;
     _responseHandlers := _responseHandlers c; isConnected := b |}.

Definition newline : string := String (ascii_of_nat 10) "".

(** Accesses to [_responseHandlers] made by [handleServerOutput], and its
    call of a registered callback. *)
Inductive access :=
  | Has (k : value)
  | Get (k : value)
  | Call (id : Z) (response : json)
  | Delete (k : value).

(** Result of [handleServerOutput]: the client afterwards, what it did with
    the registry, and the promise its callback settled, whose awaiting
    code runs once the listener has returned. *)
Record dispatch := {
  after : Client;
  accesses : list access;
  settled : option (awaiter * Z * outcome)
}.

(** The key of [_responseHandlers] a value is the same as ([SameValueZero]):
    the registry is keyed by the integers [request] hands out. *)
Definition key (k : value) : option Z :=
  match k with
  | Some (JNumber m e) => Js.integer m e
  | _ => None
  end.

Definition initParams : json :=
  JObject
    [("protocolVersion", JString "2024-11-05");
     ("capabilities",
       JObject [("roots", JObject [("listChanged", JBool true)]);
                ("sampling", JObject [])]);
     ("clientInfo",
       JObject [("name", JString "MCPStudyClient");
                ("version", JString "1.0.0")])].

Definition JsonRpcRequest (id : Z) (method : string) (params : json) : json :=
  JObject [("jsonrpc", JString "2.0"); ("id", JNumber id 0);
           ("method", JString method); ("params", params)].

Definition JsonRpcNotification (method : string) (params : json) : json :=
  JObject [("jsonrpc", JString "2.0"); ("method", JString method);
           ("params", params)].

Section Client.
Context `{ECMAScript}.

(** The callback [request] registers: [None] when its body throws. *)
Definition callback (response : json) : option outcome :=
  error ← Js.get (Some response) "error";
  if Js.truthy error then
    message ← Js.get error "message" ≫= ToString;
    code ← Js.get error "code" ≫= ToString;
    Some (Rejected (Error
      ("Request failed: " +:+ message +:+ " (" +:+ code +:+ ")")))
  else
    Fulfilled <$> Js.get (Some response) "result".

Definition quiet (c : Client) : dispatch :=
  {| after := c; accesses := []; settled := None |}.

(** The body of the [try] block once [JSON.parse] has returned
    [response]; an exception thrown in it is caught and logged. *)
Definition deliver (c : Client) (response : json) : dispatch :=
  match Js.get (Some response) "id" with
  | None => quiet c
  | Some id =>
      if Js.truthy id then
        match key id ≫= (fun k => (k,.) <$> _responseHandlers c !! k) with
        | None => {| after := c; accesses := [Has id]; settled := None |}
        | Some (k, a) =>
            match callback response with
            | None =>
                {| after := c;
                   accesses := [Has id; Get id; Call k response];
                   settled := None |}
            | Some o =>
                {| after :=
                     set_responseHandlers (delete k (_responseHandlers c)) c;
                   accesses := [Has id; Get id; Call k response; Delete id];
                   settled := Some (a, k, o) |}
            end
        end
      else quiet c
  end.

Definition handleServerOutput (c : Client) (data : string) : dispatch :=
  let output := Text.trim data in
  if Text.startsWith output "{" && Text.endsWith output "}" then
    match JSON_parse output with
    | None => quiet c
    | Some response => deliver c response
    end
  else quiet c.

(** [request(method, params)], called from the async method [a]. *)
Definition request (c : Client) (method : string) (params : json)
    (a : awaiter) : Client * list effect * reply :=
  match serverProcess c with
  | None => (c, [], Failed (Error "Not connected to a server"))
  | Some _ =>
      let id := nextRequestId c in
      let c := set_nextRequestId (id + 1) c in
      match serverProcess c with
      | None => (c, [], Unsettled)
      | Some p =>
          (set_responseHandlers (<[id := a]> (_responseHandlers c)) c,
           [Write p
              (JSON_stringify (JsonRpcRequest id method params) +:+ newline)],
           Awaiting id)
      end
  end.

Definition notification (c : Client) (method : string) (params : json)
    : Client * list effect :=
  match serverProcess c with
  | None => (c, [])
  | Some p =>
      (c, [Write p
             (JSON_stringify (JsonRpcNotification method params)
                +:+ newline)])
  end.

(** [initialize()] up to its [await]. *)
Definition initialize (c : Client) : Client * list effect * reply :=
  request c "initialize" initParams AwaitConnect.

(** The text of [v || 'Not specified'] inside a template literal. *)
Definition shown (v : value) : option string :=
  if Js.truthy v then ToString v else Some "Not specified".

(** What the success report of [initialize] reads and converts to text;
    [None] when one of these steps throws.  Listing the capabilities
    ([Object.keys], [JSON.stringify]) cannot throw. *)
Definition report (initResult : value) : option unit :=
  protocolVersion ← Js.get initResult "protocolVersion";
  _ ← shown protocolVersion;
  serverInfo ← Js.get initResult "serverInfo";
  if Js.truthy serverInfo then
    name ← Js.get serverInfo "name";
    _ ← shown name;
    version ← Js.get serverInfo "version";
    _ ← shown version;
    Some ()
  else Some ().

(** [initialize()] from its [await] on: [inr e] when it throws [e]. *)
Definition initialize_resume (c : Client) (o : outcome)
    : Client * list effect * (unit + exn) :=
  match o with
  | Rejected e => (c, [], inr e)
  | Fulfilled initResult =>
      match report initResult with
      | None => (c, [], inr TypeError)
      | Some _ =>
          let '(c, w) := notification c "notifications/initialized"
                           (JObject []) in
          (c, w, inl ())
      end
  end.

(** [connect(serverProcess)] up to its [await]. *)
Definition connect (c : Client) (p : proc) : Client * list effect * reply :=
  if isConnected c then
    (c, [], Failed (Error "Client is already connected to a server"))
  else
    let c := set_serverProcess (Some p) c in
    let '(c, w, r) := initialize c in
    (c, Listen p :: w, r).

(** [connect] from its [await] on; [id] names its promise. *)
Definition connect_resume (c : Client) (id : Z) (r : unit + exn)
    : Client * list effect :=
  match r with
  | inl _ => (set_isConnected true c, [Settle AwaitConnect id (Fulfilled undefined)])
  | inr e => (c, [Settle AwaitConnect id (Rejected e)])
  end.

(** [listTools()] up to its [await]. *)
Definition listTools (c : Client) : Client * list effect * reply :=
  if negb (isConnected c) then
    (c, [], Failed (Error "Not connected to a server"))
  else request c "tools/list" (JObject []) AwaitListTools.

(** [listTools] from its [await] on: it returns the result or rethrows. *)
Definition listTools_resume (c : Client) (id : Z) (o : outcome)
    : Client * list effect :=
  (c, [Settle AwaitListTools id o]).

Definition disconnect (c : Client) : Client * list effect :=
  (set_serverProcess None (set_isConnected false c), []).

(** The code awaiting a promise that a callback has settled. *)
Definition resume (c : Client) (a : awaiter) (id : Z) (o : outcome)
    : Client * list effect :=
  match a with
  | AwaitConnect =>
      let '(c, w, r) := initialize_resume c o in
      let '(c, w') := connect_resume c id r in
      (c, w ++ w')
  | AwaitListTools => listTools_resume c id o
  end.

(** The listener on [stdout]'s [data]: [handleServerOutput], then the
    awaiting code before any other event is served. *)
Definition stdout_data (c : Client) (data : string) : Client * list effect :=
  let d := handleServerOutput c data in
  match settled d with
  | None => (after d, [])
  | Some (a, id, o) => resume (after d) a id o
  end.

(** The listener on the child's [close]. *)
Definition close (c : Client) : Client * list effect :=
  (set_serverProcess None (set_isConnected false c), []).

(** The [SIGINT] handler of [main], which owns the child [p]. *)
Definition sigint (c : Client) (p : proc) : Client * list effect :=
  let '(c, w) := disconnect c in
  (c, w ++ [Kill p]).

End Client.

(** ** A reference instance of the built-ins

    [JSON.parse] on the JSON grammar, a number being given by the exact
    value of its literal (the double it is rounded to when the literal is
    not representable is not modelled), and a lone surrogate escape, which
    has no UTF-8 form, being refused.  [Number::toString] is exact on
    integers of magnitude below 10^21. *)

Module Reference.

Definition is_ws (a : ascii) : bool :=
  let n := nat_of_ascii a in
  Nat.eqb n 32 || Nat.eqb n 9 || Nat.eqb n 10 || Nat.eqb n 13.

Fixpoint skip_ws (s : string) : string :=
  match s with
  | String a rest => if is_ws a then skip_ws rest else s
  | "" => ""
  end.

Definition digit (a : ascii) : option Z :=
  let n := nat_of_ascii a in
  if Nat.leb 48 n && Nat.leb n 57 then Some (Z.of_nat n - 48) else None.

Definition hex (a : ascii) : option Z :=
  let n := nat_of_ascii a in
  if Nat.leb 48 n && Nat.leb n 57 then Some (Z.of_nat n - 48)
  else if Nat.leb 65 n && Nat.leb n 70 then Some (Z.of_nat n - 55)
  else if Nat.leb 97 n && Nat.leb n 102 then Some (Z.of_nat n - 87)
  else None.

(** The longest run of digits at the head of [s]: its value appended to
    [acc], its length, and the rest. *)
Fixpoint digits (s : string) (acc : Z) : Z * nat * string :=
  match s with
  | String a rest =>
      match digit a with
      | Some d => let '(v, n, r) := digits rest (10 * acc + d) in (v, S n, r)
      | None => (acc, O, s)
      end
  | "" => (acc, O, "")
  end.

Definition exponent (s : string) : option (Z * string) :=
  match s with
  | String a rest =>
      if Ascii.eqb a "e" || Ascii.eqb a "E" then
        let '(sign, rest) :=
          match rest with
          | String b rest' =>
              if Ascii.eqb b "-" then (-1, rest')
              else if Ascii.eqb b "+" then (1, rest')
              else (1, rest)
          | "" => (1, rest)
          end in
        let '(v, n, r) := digits rest 0 in
        match n with O => None | S _ => Some (sign * v, r) end
      else Some (0, s)
  | "" => Some (0, s)
  end.

Definition fraction (s : string) (int : Z) : option (Z * Z * string) :=
  match s with
  | String a rest =>
      if Ascii.eqb a "." then
        let '(v, n, r) := digits rest int in
        match n with O => None | S _ => Some (v, - Z.of_nat n, r) end
      else Some (int, 0, s)
  | "" => Some (int, 0, s)
  end.

Definition number (s : string) : option (json * string) :=
  let '(sign, s) :=
    match s with
    | String a rest => if Ascii.eqb a "-" then (-1, rest) else (1, s)
    | "" => (1, s)
    end in
  let '(int, n, r) := digits s 0 in
  match n with
  | O => None
  | S n' =>
      if match s, n' with
         | String a _, S _ => Ascii.eqb a "0"
         | _, _ => false
         end
      then None
      else
        '(m, e1, r) ← fraction r int;
        '(e2, r) ← exponent r;
        Some (JNumber (sign * m) (e1 + e2), r)
  end.

(** UTF-8 of a code point that is not a surrogate. *)
Definition utf8 (cp : Z) : string :=
  let b (z : Z) := ascii_of_nat (Z.to_nat z) in
  if cp <? 128 then String (b cp) ""
  else if cp <? 2048 then
    String (b (192 + cp / 64)) (String (b (128 + cp mod 64)) "")
  else if cp <? 65536 then
    String (b (224 + cp / 4096))
      (String (b (128 + cp / 64 mod 64)) (String (b (128 + cp mod 64)) ""))
  else
    String (b (240 + cp / 262144))
      (String (b (128 + cp / 4096 mod 64))
        (String (b (128 + cp / 64 mod 64)) (String (b (128 + cp mod 64)) ""))).

Definition unit16 (s : string) : option (Z * string) :=
  match s with
  | String a (String b (String c (String d rest))) =>
      x ← hex a; y ← hex b; z ← hex c; w ← hex d;
      Some (4096 * x + 256 * y + 16 * z + w, rest)
  | _ => None
  end.

Definition escape (s : string) : option (string * string) :=
  match s with
  | String a rest =>
      if Ascii.eqb a "u" then
        '(hi, rest) ← unit16 rest;
        if (hi <? 55296) || (57343 <? hi) then Some (utf8 hi, rest)
        else if hi <? 56320 then
          match rest with
          | String b (String c rest') =>
              if Ascii.eqb b backslash && Ascii.eqb c "u" then
                '(lo, rest'') ← unit16 rest';
                if (56320 <=? lo) && (lo <=? 57343) then
                  Some (utf8 (65536 + 1024 * (hi - 55296) + (lo - 56320)),
                        rest'')
                else None
              else None
          | _ => None
          end
        else None
      else
        let n := nat_of_ascii a in
        (fun c => (String (ascii_of_nat c) "", rest)) <$>
          (if Ascii.eqb a dquote then Some 34
           else if Ascii.eqb a backslash then Some 92
           else if Ascii.eqb a "/" then Some 47
           else if Ascii.eqb a "b" then Some 8
           else if Ascii.eqb a "f" then Some 12
           else if Ascii.eqb a "n" then Some 10
           else if Ascii.eqb a "r" then Some 13
           else if Ascii.eqb a "t" then Some 9
           else None)%nat
  | "" => None
  end.

(** The characters of a string literal after its opening quote. *)
Fixpoint chars (fuel : nat) (s : string) : option (string * string) :=
  match fuel, s with
  | S fuel, String a rest =>
      if Ascii.eqb a dquote then Some ("", rest)
      else if Ascii.eqb a backslash then
        '(c, rest) ← escape rest;
        '(cs, rest) ← chars fuel rest;
        Some (c +:+ cs, rest)
      else if Nat.ltb (nat_of_ascii a) 32 then None
      else
        '(cs, rest) ← chars fuel rest;
        Some (String a cs, rest)
  | _, _ => None
  end.

Definition text (s : string) : option (string * string) :=
  match s with
  | String a rest =>
      if Ascii.eqb a dquote then chars (String.length rest) rest else None
  | "" => None
  end.

(** [item (, item)* close], after the opening bracket and a first look
    that excluded the empty sequence. *)
Fixpoint sequence {A} (item : string -> option (A * string)) (close : ascii)
    (fuel : nat) (s : string) : option (list A * string) :=
  match fuel with
  | O => None
  | S fuel =>
      '(x, rest) ← item s;
      match skip_ws rest with
      | String a rest =>
          if Ascii.eqb a "," then
            '(xs, rest) ← sequence item close fuel rest;
            Some (x :: xs, rest)
          else if Ascii.eqb a close then Some ([x], rest)
          else None
      | "" => None
      end
  end.

Definition member (val : string -> option (json * string)) (s : string)
    : option (string * json * string) :=
  '(k, rest) ← text (skip_ws s);
  match skip_ws rest with
  | String a rest =>
      if Ascii.eqb a ":" then '(v, rest) ← val rest; Some (k, v, rest)
      else None
  | "" => None
  end.

(** A later duplicate of a key replaces the value and keeps the place. *)
Fixpoint define (fields : list (string * json)) (k : string) (v : json)
    : list (string * json) :=
  match fields with
  | [] => [(k, v)]
  | (k', v') :: rest =>
      if String.eqb k' k then (k', v) :: rest
      else (k', v') :: define rest k v
  end.

Definition literal (word : string) (v : json) (s : string)
    : option (json * string) :=
  if Text.startsWith s word then Some (v, Text.drop (String.length word) s)
  else None.

Fixpoint parse (fuel : nat) (s : string) : option (json * string) :=
  match fuel with
  | O => None
  | S fuel =>
      match skip_ws s with
      | "" => None
      | String a rest as s =>
          if Ascii.eqb a "{" then
            match skip_ws rest with
            | String b rest' as inner =>
                if Ascii.eqb b "}" then Some (JObject [], rest')
                else
                  '(ms, rest) ← sequence (member (parse fuel)) "}"
                                  (String.length inner) inner;
                  Some (JObject (foldl (fun fs kv => define fs kv.1 kv.2) [] ms),
                        rest)
            | "" => None
            end
          else if Ascii.eqb a "[" then
            match skip_ws rest with
            | String b rest' as inner =>
                if Ascii.eqb b "]" then Some (JArray [], rest')
                else
                  '(xs, rest) ← sequence (parse fuel) "]"
                                  (String.length inner) inner;
                  Some (JArray xs, rest)
            | "" => None
            end
          else if Ascii.eqb a dquote then
            '(t, rest) ← text s; Some (JString t, rest)
          else if Ascii.eqb a "t" then literal "true" (JBool true) s
          else if Ascii.eqb a "f" then literal "false" (JBool false) s
          else if Ascii.eqb a "n" then literal "null" JNull s
          else number s
      end
  end.

Definition JSON_parse (s : string) : option json :=
  '(v, rest) ← parse (S (String.length s)) s;
  match skip_ws rest with
  | "" => Some v
  | _ => None
  end.

Definition Number_toString (m e : Z) : string :=
  match Js.integer m e with
  | Some z => Text.decimal z
  | None => Text.decimal m +:+ "e" +:+ Text.decimal e
  end.

End Reference.

#[export] Instance reference : ECMAScript :=
  {| JSON_parse := Reference.JSON_parse;
     Number_toString := Reference.Number_toString |}.


(** ** Sessions: calls of the public methods and events of the child *)

Section Session.
Context `{ECMAScript}.

(** The message [handleServerOutput] reads out of one chunk, if any. *)
Definition frame (data : string) : option json :=
  let output := Text.trim data in
  if Text.startsWith output "{" && Text.endsWith output "}"
  then JSON_parse output else None.

(** What happens to a client: a call of a public method, or an event
    served by a listener [connect] attached.  A listener attached twice is
    served twice, which is the event twice in a row; the listener on
    [stderr] only logs. *)
Inductive op :=
  | CallConnect (p : proc)
  | CallListTools
  | CallDisconnect
  | StdoutData (data : string)
  | ChildClose.

Definition step (c : Client) (o : op) : Client * list effect * option reply :=
  match o with
  | CallConnect p => let '(c, w, r) := connect c p in (c, w, Some r)
  | CallListTools => let '(c, w, r) := listTools c in (c, w, Some r)
  | CallDisconnect => let '(c, w) := disconnect c in (c, w, None)
  | StdoutData data => let '(c, w) := stdout_data c data in (c, w, None)
  | ChildClose => let '(c, w) := close c in (c, w, None)
  end.

(** The client after a sequence of calls and events, with what each did. *)
Fixpoint run (c : Client) (ops : list op)
    : Client * list (list effect * option reply) :=
  match ops with
  | [] => (c, [])
  | o :: ops =>
      let '(c, w, r) := step c o in
      let '(c, t) := run c ops in
      (c, (w, r) :: t)
  end.

(** The identifiers assigned to the requests of a session, in order. *)
Definition issued (t : list (list effect * option reply)) : list Z :=
  omap (fun x => match x.2 with Some (Awaiting id) => Some id | _ => None end) t.

(** All that a session wrote and settled, in order. *)
Definition effects (t : list (list effect * option reply)) : list effect :=
  concat (fst <$> t).

Definition is_connect (o : op) : bool :=
  match o with CallConnect _ => true | _ => false end.

(** The callbacks called while a sequence of chunks is delivered. *)
Definition calls (l : list access) : list (Z * json) :=
  omap (fun x => match x with Call id r => Some (id, r) | _ => None end) l.

Fixpoint feed (c : Client) (chunks : list string) : Client * list access :=
  match chunks with
  | [] => (c, [])
  | x :: chunks =>
      let '(c', l) := feed (stdout_data c x).1 chunks in
      (c', accesses (handleServerOutput c x) ++ l)
  end.

(** Identifiers are handed out from 1 upwards and the registry holds
    callbacks under identifiers already handed out only. *)
Definition wf (c : Client) : Prop :=
  1 <= nextRequestId c
  /\ forall id, is_Some (_responseHandlers c !! id) ->
       1 <= id < nextRequestId c.

(** No handshake is complete or under way. *)
Definition idle (c : Client) : Prop :=
  isConnected c = false
  /\ forall k, _responseHandlers c !! k <> Some AwaitConnect.

Definition is_data (o : op) : bool :=
  match o with StdoutData _ => true | _ => false end.

(** A field the success report can show: a string, or missing. *)
Definition plain (v : value) : bool :=
  match v with
  | None | Some (JString _) => true
  | _ => false
  end.

(** The callback registered under the [id] of a response, if any. *)
Definition registered (c : Client) (response : json) : option awaiter :=
  id ← Js.get (Some response) "id";
  k ← key id;
  _responseHandlers c !! k.

(** The [initialize] requests awaiting their response. *)
Definition handshakes (c : Client) : gmap Z awaiter :=
  filter (fun x => x.2 = AwaitConnect) (_responseHandlers c).

(** A parsed object whose [id] is absent or is the number zero. *)
Definition no_identifier (response : json) : bool :=
  match response with
  | JObject fields =>
      match Js.own fields "id" with
      | None => true
      | Some (JNumber m _) => m =? 0
      | Some _ => false
      end
  | _ => false
  end.

Definition is_write (e : effect) : bool :=
  match e with Write _ _ => true | _ => false end.

Definition is_settle (e : effect) : bool :=
  match e with Settle _ _ _ => true | _ => false end.

(** *** The specification's wording of the behaviours the code lacks *)

(** Drain on close: the registry ends up empty and every callback that was
    pending has been failed. *)
Definition drains (c : Client) : Prop :=
  let '(c', w) := close c in
  _responseHandlers c' = ∅
  /\ forall id a, _responseHandlers c !! id = Some a ->
       exists e, Settle a id (Rejected e) ∈ w.

(** Reassembly: a frame delivered in two chunks is decoded once and
    dispatched once. *)
Definition reassembles (c : Client) (chunk1 chunk2 : string) : Prop :=
  length (omap frame [chunk1; chunk2]) = 1%nat
  /\ length (calls (feed c [chunk1; chunk2]).2) = 1%nat.

(** Re-entrancy: [connect] is refused, the client left as it was and
    nothing sent. *)
Definition refuses_connect (c : Client) (p : proc) : Prop :=
  exists e, connect c p = (c, [], Failed e).

(** Handshake completion: the response makes the client connected and the
    [initialized] notification is written. *)
Definition completes_handshake (c : Client) (data : string) : Prop :=
  let '(c', w) := stdout_data c data in
  isConnected c' = true /\ exists p bytes, Write p bytes ∈ w.

End Session.

(** ** Scenarios of the specification, on the reference built-ins *)

Module Scenario.

Definition child : proc := 7%nat.

(** [connect] called, [initialize] sent as request 1 and not answered. *)
Definition handshaking : Client := (connect newClient child).1.1.

Definition initialize_ok : string :=
  Text.wire "{'id':1,'result':{'protocolVersion':'2024-11-05','capabilities':{},'serverInfo':{'name':'x','version':'1'}}}"
  +:+ newline.

Definition initialize_error : string :=
  Text.wire "{'id':1,'error':{'code':-32000,'message':'boom'}}" +:+ newline.

Definition initialize_null : string :=
  Text.wire "{'jsonrpc':'2.0','id':1,'result':null}" +:+ newline.

(** A server identity whose name does not convert to text. *)
Definition initialize_odd_name : string :=
  Text.wire "{'jsonrpc':'2.0','id':1,'result':{'serverInfo':{'name':{'toString':0}}}}"
  +:+ newline.

Definition ready : Client := (stdout_data handshaking initialize_ok).1.

(** Two [listTools] calls pending, under identifiers 2 and 3. *)
Definition pending23 : Client := (run ready [CallListTools; CallListTools]).1.

Definition chunk1 : string := Text.wire "{'jsonrpc':'2.0','i".
Definition chunk2 : string := Text.wire "d':1,'result':{}}" +:+ newline.

Definition unsolicited : string :=
  Text.wire "{'jsonrpc':'2.0','id':99,'result':{}}" +:+ newline.

Definition id_zero : string :=
  Text.wire "{'jsonrpc':'2.0','id':0,'result':{}}" +:+ newline.

(** A client with a callback put under identifier 0 by hand. *)
Definition zero_registered : Client :=
  set_responseHandlers (<[0 := AwaitListTools]> (_responseHandlers ready)) ready.

End Scenario.

(** ** Further vocabulary for sessions *)

(** The identifiers of the promises settled by a list of effects. *)
Definition settlements (w : list effect) : list Z :=
  omap (fun e => match e with Settle _ id _ => Some id | _ => None end) w.

(** The frames written to a child by a list of effects. *)
Definition writes (w : list effect) : list (proc * string) :=
  omap (fun e => match e with Write p b => Some (p, b) | _ => None end) w.

(** Whether the code awaiting a settled promise sets [isConnected]: it
    does at the end of [connect], when [initialize] has not thrown. *)
Definition becomes_connected `{ECMAScript} (a : awaiter) (o : outcome) : bool :=
  match a, o with
  | AwaitConnect, Fulfilled initResult =>
      match report initResult with Some _ => true | None => false end
  | _, _ => false
  end.

(** What that code writes and settles, given the process it writes to. *)
Definition resume_effects `{ECMAScript} (p : option proc) (a : awaiter)
    (id : Z) (o : outcome) : list effect :=
  (resume (set_serverProcess p newClient) a id o).2.

(** ** Starting the server: [newServer] and [main] *)

(** What [newServer] uses of Node: the working directory, [path.resolve]
    on strings, [fs.existsSync], and [fs.readFileSync] with an encoding,
    which is [None] when it throws. *)
Class Node := {
  cwd : string;
  path_resolve : list string -> string;
  existsSync : string -> bool;
  readFileSync : string -> option string
}.

(** The arguments of [spawn]. *)
Record spawned := { command : string; args : list string }.

Section Server.
Context `{ECMAScript} `{Node}.

(** [path.resolve(packagePath, mainScript)] for [mainScript] a value read
    from [package.json]: an argument that is not a string makes it throw a
    [TypeError], which is [None]. *)
Definition resolve_main (packagePath : string) (mainScript : json)
    : option string :=
  match mainScript with
  | JString s => Some (path_resolve [packagePath; s])
  | _ => None
  end.

(** [findServerPath()]; [None] when it throws.  An exception inside a
    [try] block is caught and logged, and the search goes on. *)
Definition findServerPath : option string :=
  let packagePath :=
    path_resolve [cwd; "node_modules"; "@modelcontextprotocol";
                  "server-filesystem"] in
  match
    (if existsSync packagePath then
       let packageJsonPath := path_resolve [packagePath; "package.json"] in
       match
         (if existsSync packageJsonPath then
            text ← readFileSync packageJsonPath;
            packageJson ← JSON_parse text;
            main ← Js.get (Some packageJson) "main";
            let mainScript :=
              if Js.truthy main then main else Some (JString "dist/index.js") in
            mainScript ≫= resolve_main packagePath
          else None)
       with
       | Some found => Some found
       | None =>
           let defaultMainPath :=
             path_resolve [packagePath; "dist"; "index.js"] in
           if existsSync defaultMainPath then Some defaultMainPath else None
       end
     else None)
  with
  | Some found => Some found
  | None =>
      let parentPackagePath :=
        path_resolve [cwd; ".."; ".."; "node_modules";
                      "@modelcontextprotocol"; "server-filesystem"] in
      if existsSync parentPackagePath then
        let packageJsonPath :=
          path_resolve [parentPackagePath; "package.json"] in
        match
          (if existsSync packageJsonPath then
             text ← readFileSync packageJsonPath;
             packageJson ← JSON_parse text;
             main ← Js.get (Some packageJson) "main";
             let mainScript :=
               if Js.truthy main then main
               else Some (JString "dist/index.js") in
             mainScript ≫= resolve_main parentPackagePath
           else None)
        with
        | Some found => Some found
        | None =>
            let defaultMainPath :=
              path_resolve [parentPackagePath; "dist"; "index.js"] in
            if existsSync defaultMainPath then Some defaultMainPath else None
        end
      else None
  end.

(** [newServer(directories)]: what it asks [spawn] for, or [None] when
    [findServerPath] throws. *)
Definition newServer (directories : list string) : option spawned :=
  serverScriptPath ← findServerPath;
  let dirs :=
    if Nat.ltb 0 (length directories) then directories else ["."] in
  Some {| command := "node"; args := serverScriptPath :: dirs |}.

(** The search of one package directory, as both halves of
    [findServerPath] carry it out. *)
Definition locate (packagePath : string) : option string :=
  if existsSync packagePath then
    let packageJsonPath := path_resolve [packagePath; "package.json"] in
    match
      (if existsSync packageJsonPath then
         text ← readFileSync packageJsonPath;
         packageJson ← JSON_parse text;
         main ← Js.get (Some packageJson) "main";
         (if Js.truthy main then main else Some (JString "dist/index.js"))
           ≫= resolve_main packagePath
       else None)
    with
    | Some found => Some found
    | None =>
        let defaultMainPath := path_resolve [packagePath; "dist"; "index.js"] in
        if existsSync defaultMainPath then Some defaultMainPath else None
    end
  else None.

Definition localPackage : string :=
  path_resolve [cwd; "node_modules"; "@modelcontextprotocol";
                "server-filesystem"].

Definition parentPackage : string :=
  path_resolve [cwd; ".."; ".."; "node_modules"; "@modelcontextprotocol";
                "server-filesystem"].

End Server.

(** The directories [main] reads off [process.argv]. *)
Definition directories (argv : list string) : list string :=
  filter (fun arg => arg <> "--") (drop 2 argv).

(** Where [main] stands: awaiting [connect], awaiting [listTools], waiting
    for [SIGINT] with its handler in place, awaiting a promise nothing
    settles, ended by [process.exit], or ended by a [SIGINT] that came
    before the handler was in place. *)
Inductive phase :=
  | Connecting (id : Z)
  | Listing (id : Z)
  | Serving
  | Stalled
  | Exited (code : Z)
  | Interrupted.

Record Main := {
  main_client : Client;
  main_server : option proc;
  main_phase : phase
}.

Inductive event :=
  | EvData (data : string)
  | EvClose
  | EvSigint.

(** The outcome with which a list of effects settles the promise of the
    call [a] that awaits request [id], if it does. *)
Fixpoint find_settle (a : awaiter) (id : Z) (w : list effect)
    : option outcome :=
  match w with
  | [] => None
  | Settle a' id' o :: w =>
      if bool_decide (a' = a) && (id' =? id) then Some o
      else find_settle a id w
  | _ :: w => find_settle a id w
  end.

Section Main.
Context `{ECMAScript}.

(** [serverProcess.kill()] on the child [main] started. *)
Definition kill (server : option proc) : list effect :=
  match server with
  | Some p => [Kill p]
  | None => []
  end.

(** [main] up to its first [await], [newServer] having returned the child
    [started] or thrown ([None]): in the latter case the rejection of
    [main()] is caught and the process exits with code 1. *)
Definition main (started : option proc) : Main * list effect :=
  match started with
  | None =>
      ({| main_client := newClient; main_server := None;
          main_phase := Exited 1 |}, [])
  | Some p =>
      let '(c, w, r) := connect newClient p in
      match r with
      | Awaiting id =>
          ({| main_client := c; main_server := Some p;
              main_phase := Connecting id |}, w)
      | Failed _ =>
          ({| main_client := c; main_server := Some p;
              main_phase := Exited 1 |}, w ++ [Kill p])
      | Unsettled =>
          ({| main_client := c; main_server := Some p;
              main_phase := Stalled |}, w)
      end
  end.

(** One event served while [main] runs: the listeners of the client, then
    [main] itself when the promise it awaits has been settled. *)
Definition main_step (m : Main) (ev : event) : Main * list effect :=
  let server := main_server m in
  let at_ phase c := {| main_client := c; main_server := server;
                        main_phase := phase |} in
  match main_phase m with
  | Exited _ | Interrupted => (m, [])
  | now =>
      match ev with
      | EvClose =>
          let '(c, w) := close (main_client m) in (at_ now c, w)
      | EvSigint =>
          match now with
          | Serving =>
              let '(c, w) := disconnect (main_client m) in
              (at_ (Exited 0) c, w ++ kill server)
          | _ => (at_ Interrupted (main_client m), [])
          end
      | EvData data =>
          let '(c, w) := stdout_data (main_client m) data in
          match now with
          | Connecting id =>
              match find_settle AwaitConnect id w with
              | Some (Fulfilled _) =>
                  let '(c', w', r) := listTools c in
                  match r with
                  | Awaiting id' => (at_ (Listing id') c', w ++ w')
                  | Failed _ => (at_ (Exited 1) c', w ++ w' ++ kill server)
                  | Unsettled => (at_ Stalled c', w ++ w')
                  end
              | Some (Rejected _) => (at_ (Exited 1) c, w ++ kill server)
              | None => (at_ now c, w)
              end
          | Listing id =>
              match find_settle AwaitListTools id w with
              | Some (Fulfilled _) => (at_ Serving c, w)
              | Some (Rejected _) => (at_ (Exited 1) c, w ++ kill server)
              | None => (at_ now c, w)
              end
          | _ => (at_ now c, w)
          end
      end
  end.

Fixpoint main_run (m : Main) (evs : list event) : Main * list effect :=
  match evs with
  | [] => (m, [])
  | ev :: evs =>
      let '(m, w) := main_step m ev in
      let '(m, w') := main_run m evs in
      (m, w ++ w')
  end.

(** The whole program on a child and a sequence of events. *)
Definition program (started : option proc) (evs : list event)
    : Main * list effect :=
  let '(m, w) := main started in
  let '(m, w') := main_run m evs in
  (m, w ++ w').

(** The three frames [main] has to send, in order. *)
Definition initialize_frame : string :=
  JSON_stringify (JsonRpcRequest 1 "initialize" initParams) +:+ newline.

Definition initialized_frame : string :=
  JSON_stringify (JsonRpcNotification "notifications/initialized" (JObject []))
  +:+ newline.

Definition tools_list_frame : string :=
  JSON_stringify (JsonRpcRequest 2 "tools/list" (JObject [])) +:+ newline.

Definition main_frames (p : proc) : list (proc * string) :=
  [(p, initialize_frame); (p, initialized_frame); (p, tools_list_frame)].

Definition kills (w : list effect) : list proc :=
  omap (fun e => match e with Kill p => Some p | _ => None end) w.

(** What holds of [main] on the child [p] in each phase, [w] being all the
    effects so far. *)
Definition main_inv (p : proc) (m : Main) (w : list effect) : Prop :=
  let c := main_client m in
  main_server m = Some p
  /\ match main_phase m with
     | Connecting id =>
         id = 1 /\ _responseHandlers c = {[1 := AwaitConnect]}
         /\ nextRequestId c = 2 /\ isConnected c = false
         /\ (serverProcess c = Some p \/ serverProcess c = None)
         /\ writes w = [(p, initialize_frame)] /\ kills w = []
     | Listing id =>
         id = 2 /\ _responseHandlers c = {[2 := AwaitListTools]}
         /\ writes w = main_frames p /\ kills w = []
         /\ Settle AwaitConnect 1 (Fulfilled undefined) ∈ w
     | Serving =>
         _responseHandlers c = ∅
         /\ writes w = main_frames p /\ kills w = []
         /\ Settle AwaitConnect 1 (Fulfilled undefined) ∈ w
         /\ exists v, Settle AwaitListTools 2 (Fulfilled v) ∈ w
     | Stalled => False
     | Exited code =>
         kills w = [p]
         /\ ((code = 0 /\ writes w = main_frames p)
             \/ (code = 1 /\ writes w `prefix_of` main_frames p))
     | Interrupted => kills w = [] /\ writes w `prefix_of` main_frames p
     end.

End Main.

(** ** A file system in memory, for the scenarios of [newServer] *)

Module Disk.

(** The segments of a path between slashes. *)
Fixpoint segments (s : string) (current : string) : list string :=
  match s with
  | "" => [String.rev current]
  | String a rest =>
      if Ascii.eqb a "/" then String.rev current :: segments rest ""
      else segments rest (String a current)
  end.

(** One segment applied to the directories walked so far, innermost
    first. *)
Definition walk (stack : list string) (segment : string) : list string :=
  if String.eqb segment "" || String.eqb segment "." then stack
  else if String.eqb segment ".." then tail stack
  else segment :: stack.

(** [path.resolve] on POSIX paths, the first of which is absolute. *)
Definition resolve (paths : list string) : string :=
  "/" +:+ join "/"
    (rev (foldl (fun stack path =>
                   foldl walk
                     (if Text.startsWith path "/" then [] else stack)
                     (segments path ""))
            [] paths)).

(** A directory is listed with [None], a file with its content. *)
Definition entry (files : list (string * option string)) (path : string)
    : option (option string) :=
  snd <$> List.find (fun x => String.eqb x.1 path) files.

Definition node (cwd : string) (files : list (string * option string)) : Node :=
  {| cwd := cwd;
     path_resolve := resolve;
     existsSync path := bool_decide (is_Some (entry files path));
     readFileSync path := mjoin (entry files path) |}.

End Disk.

(** ** The tool server: listing EC2 instances *)

Module Aws.

(** The part of the reply of [DescribeInstances] the server reads; every
    member may be missing. *)
Record Tag := { Key : option string; Value : option string }.
Record Instance := { InstanceId : option string; Tags : option (list Tag) }.
Record Reservation := { Instances : option (list Instance) }.
Record DescribeInstancesCommandOutput :=
  { Reservations : option (list Reservation) }.

Record Filter := { Name : string; Values : list string }.
Record DescribeInstancesCommand := { Filters : list Filter }.

(** One listed instance. *)
Record listed := { id : option string; type : string; name : string }.

Inductive status := running | stopped.

Definition status_text (s : status) : string :=
  match s with
  | running => "running"
  | stopped => "stopped"
  end.

(** What the handler throws: an [Error], the [ZodError] of a failed
    validation, or the rejection of [client.send]. *)
Inductive thrown :=
  | Thrown (e : exn)
  | ZodError
  | SendFailed.

Record content := { content_type : string; text : string }.
Record CallToolResult := { contents : list content }.

(** [FindEc2InstancesInputSchema.parse(arguments)]: an object is
    required; [status] must be one of the two words and is [running] when
    it is missing; other members are dropped.  [None] is a [ZodError]. *)
Definition FindEc2InstancesInputSchema (arguments : value) : option status :=
  match arguments with
  | Some (JObject fields) =>
      match Js.own fields "status" with
      | None => Some running
      | Some (JString s) =>
          if String.eqb s "running" then Some running
          else if String.eqb s "stopped" then Some stopped
          else None
      | Some _ => None
      end
  | _ => None
  end.

(** The name of an instance: the value of its first tag with key [Name],
    or [Unnamed Instance] when there is no such tag or it has no value. *)
Definition instance_name (instance : Instance) : string :=
  default "Unnamed Instance"
    (tags ← Tags instance;
     tag ← List.find (fun tag => bool_decide (Key tag = Some "Name")) tags;
     Value tag).

(** What [findEc2Instances] makes of the reply. *)
Definition instances_of (response : DescribeInstancesCommandOutput)
    : list listed :=
  default []
    ((fun reservations =>
        mbind (M := list)
          (fun reservation =>
             default []
               (fmap (M := list)
                  (fun instance =>
                     {| id := InstanceId instance; type := "ec2";
                        name := instance_name instance |})
                <$> Instances reservation))
          reservations)
     <$> Reservations response).

Definition find_command (s : status) : DescribeInstancesCommand :=
  {| Filters := [{| Name := "instance-state-name";
                    Values := [status_text s] |}] |}.

Definition listed_json (i : listed) : json :=
  JObject
    (match id i with Some x => [("id", JString x)] | None => [] end
     ++ [("type", JString (type i)); ("name", JString (name i))]).

Section Handler.
Context `{ECMAScript}.

(** [JSON.stringify(value, null, 2)] at a given indentation. *)
Fixpoint pretty (indent : string) (v : json) : string :=
  let inner := indent +:+ "  " in
  match v with
  | JArray [] => "[]"
  | JArray items =>
      "[" +:+ newline +:+ inner
      +:+ join ("," +:+ newline +:+ inner) (pretty inner <$> items)
      +:+ newline +:+ indent +:+ "]"
  | JObject [] => "{}"
  | JObject fields =>
      "{" +:+ newline +:+ inner
      +:+ join ("," +:+ newline +:+ inner)
            ((fun kv => quote kv.1 +:+ ": " +:+ pretty inner kv.2) <$> fields)
      +:+ newline +:+ indent +:+ "}"
  | _ => JSON_stringify v
  end.

(** [findEc2Instances(args)], [send] being [client.send], which is [None]
    when its promise is rejected. *)
Definition findEc2Instances
    (send : DescribeInstancesCommand -> option DescribeInstancesCommandOutput)
    (s : status) : option (list listed) :=
  instances_of <$> send (find_command s).

(** The handler of [tools/call]. *)
Definition callTool
    (send : DescribeInstancesCommand -> option DescribeInstancesCommandOutput)
    (tool : string) (arguments : value) : thrown + CallToolResult :=
  if String.eqb tool "find_ec2_instances" then
    match FindEc2InstancesInputSchema arguments with
    | None => inl ZodError
    | Some s =>
        match findEc2Instances send s with
        | None => inl SendFailed
        | Some instances =>
            inr {| contents :=
                     [{| content_type := "text";
                         text := pretty "" (JArray (listed_json <$> instances)) |}] |}
        end
    end
  else inl (Thrown (Error ("Tool " +:+ tool +:+ " not found"))).

End Handler.

End Aws.

(** ** Further scenarios *)

Module More.
Import Scenario.

(** The client after [disconnect] with the calls 2 and 3 pending. *)
Definition disconnected : Client := (disconnect pending23).1.

Definition answer2 : string := Text.wire "{'jsonrpc':'2.0','id':2,'result':'two'}".
Definition answer3 : string := Text.wire "{'jsonrpc':'2.0','id':3,'result':'three'}".

Definition tools : string :=
  Text.wire "{'jsonrpc':'2.0','id':2,'result':{'tools':[]}}" +:+ newline.

(** An answer whose identifier came back as a string. *)
Definition quoted_id : string :=
  Text.wire "{'jsonrpc':'2.0','id':'2','result':{}}" +:+ newline.

Definition project : string := "/home/dev/mcp-study/packages/client".

Definition local : string :=
  "/home/dev/mcp-study/packages/client/node_modules/@modelcontextprotocol/server-filesystem".

Definition parent : string :=
  "/home/dev/mcp-study/node_modules/@modelcontextprotocol/server-filesystem".

(** The local package names a [main] that is not on the disk. *)
Definition with_main : Node :=
  Disk.node project
    [(local, None);
     (local +:+ "/package.json", Some (Text.wire "{'name':'server','main':'build/server.js'}"));
     (parent, None);
     (parent +:+ "/dist/index.js", Some "")].


Definition bare : Node := Disk.node project [].

Definition argv : list string :=
  ["/usr/bin/node"; "client.js"; "--"; "/tmp"; "/srv/data"].

(** An instance whose first [Name] tag has no value. *)
Definition web : Aws.Instance :=
  {| Aws.InstanceId := Some "i-0abc";
     Aws.Tags :=
       Some [{| Aws.Key := Some "env"; Aws.Value := Some "prod" |};
             {| Aws.Key := Some "Name"; Aws.Value := None |};
             {| Aws.Key := Some "Name"; Aws.Value := Some "web" |}] |}.

Definition reply : Aws.DescribeInstancesCommandOutput :=
  {| Aws.Reservations :=
       Some [{| Aws.Instances := Some [web] |}; {| Aws.Instances := None |}] |}.

(** EC2 answering with [reply] for the running instances only. *)
Definition ec2 (c : Aws.DescribeInstancesCommand)
    : option Aws.DescribeInstancesCommandOutput :=
  match Aws.Filters c with
  | [f] =>
      if String.eqb (Aws.Name f) "instance-state-name"
         && bool_decide (Aws.Values f = ["running"])
      then Some reply else None
  | _ => None
  end.

End More.

(** * Properties *)

Ltac members :=
  repeat match goal with
         | M : _ ∈ [] |- _ => inversion M
         | M : _ ∈ _ :: _ |- _ => inversion M; clear M; subst
         end.

Ltac quiet_case :=
  simpl; split; [reflexivity | ]; split; [reflexivity | ];
  intros ? ? ?; members.

Section Properties.
Context `{ECMAScript}.

(** ** What one chunk can do *)

Lemma handleServerOutput_frame c data :
  handleServerOutput c data =
  match frame data with
  | Some response => deliver c response
  | None => quiet c
  end.
Proof.
  unfold frame, handleServerOutput; cbv zeta.
  destruct (_ && _); [ | reflexivity].
  destruct (JSON_parse _); reflexivity.
Qed.

(** [deliver] touches nothing but the registry, from which it removes at
    most the entry whose callback it called. *)
Lemma deliver_after c response :
  let d := deliver c response in
  (after d = c /\ settled d = None /\ forall k r, Call k r ∈ accesses d ->
     is_Some (_responseHandlers c !! k) /\ callback r = None)
  \/ exists k a o,
       _responseHandlers c !! k = Some a
       /\ callback response = Some o
       /\ after d = set_responseHandlers (delete k (_responseHandlers c)) c
       /\ settled d = Some (a, k, o).
Proof.
  unfold deliver; cbv zeta.
  destruct (Js.get _ _) as [id | ]; [ | left; quiet_case].
  destruct (Js.truthy id); [ | left; quiet_case].
  destruct (key id ≫= _) as [[k a] | ] eqn:E; [ | left; quiet_case].
  apply bind_Some in E as (k' & _ & E).
  apply fmap_Some in E as (a' & E & ?). simplify_eq.
  destruct (callback response) as [o | ] eqn:Ec; simpl.
  - right. eauto 8.
  - left. quiet_case. eauto.
Qed.

Lemma handleServerOutput_after c data :
  let d := handleServerOutput c data in
  (after d = c /\ settled d = None)
  \/ exists k a o,
       _responseHandlers c !! k = Some a
       /\ after d = set_responseHandlers (delete k (_responseHandlers c)) c
       /\ settled d = Some (a, k, o).
Proof.
  cbv zeta. rewrite handleServerOutput_frame.
  destruct (frame data) as [response | ]; [ | by left].
  destruct (deliver_after c response) as [(? & ? & _) | (k & a & o & ? & _ & ? & ?)];
    eauto 8.
Qed.

(** ** Invariant of a session: identifiers and the registry *)

Lemma wf_newClient : wf newClient.
Proof.
  split; [simpl; lia | ].
  intros id [a Ha]. simpl in Ha. by rewrite lookup_empty in Ha.
Qed.

Lemma request_wf c method params a c' w r :
  request c method params a = (c', w, r) -> wf c ->
  wf c' /\ nextRequestId c <= nextRequestId c'
  /\ forall id, r = Awaiting id ->
       id = nextRequestId c /\ nextRequestId c' = id + 1
       /\ _responseHandlers c !! id = None.
Proof.
  unfold request. intros E Hwf.
  destruct (serverProcess c) as [p | ] eqn:Ep; simpl in E.
  - rewrite Ep in E. injection E as <- <- <-. simpl.
    destruct Hwf as [Hn Hreg].
    assert (_responseHandlers c !! nextRequestId c = None) as Hfree.
    { destruct (_responseHandlers c !! nextRequestId c) eqn:El; [ | done].
      specialize (Hreg _ (mk_is_Some _ _ El)). lia. }
    split; [split; simpl; [lia | ] | split; [lia | ]].
    + intros id Hid.
      destruct (decide (id = nextRequestId c)) as [-> | Hne]; [lia | ].
      rewrite lookup_insert_ne in Hid by done.
      specialize (Hreg _ Hid). lia.
    + intros id [= <-]. auto.
  - injection E as <- <- <-.
    split; [exact Hwf | ]. split; [lia | ]. intros id [=].
Qed.

Lemma resume_fields c a id o c' w :
  resume c a id o = (c', w) ->
  serverProcess c' = serverProcess c
  /\ nextRequestId c' = nextRequestId c
  /\ _responseHandlers c' = _responseHandlers c.
Proof.
  unfold resume, initialize_resume, connect_resume, listTools_resume,
    notification.
  intros E. repeat (case_match; simplify_eq/=); auto.
Qed.

Lemma stdout_data_fields c data c' w :
  stdout_data c data = (c', w) ->
  serverProcess c' = serverProcess c
  /\ nextRequestId c' = nextRequestId c
  /\ (_responseHandlers c' = _responseHandlers c
      \/ exists k, _responseHandlers c' = delete k (_responseHandlers c)).
Proof.
  unfold stdout_data. intros E.
  destruct (handleServerOutput_after c data) as [[Ha Hs] | (k & a & o & _ & Ha & Hs)];
    rewrite Hs in E.
  - injection E as <- <-. rewrite Ha. auto.
  - apply resume_fields in E as (-> & -> & ->). rewrite Ha. simpl. eauto.
Qed.

Lemma step_wf c o c' w r :
  step c o = (c', w, r) -> wf c ->
  wf c' /\ nextRequestId c <= nextRequestId c'
  /\ forall id, r = Some (Awaiting id) ->
       id = nextRequestId c /\ nextRequestId c' = id + 1
       /\ _responseHandlers c !! id = None.
Proof.
  intros E Hwf. destruct o as [p | | | data | ]; simpl in E.
  - unfold connect, initialize in E.
    destruct (isConnected c).
    + simplify_eq. split; [exact Hwf | ]. split; [lia | ]. intros id [=].
    + destruct (request _ _ _ _) as [[c1 w1] r1] eqn:Er. simplify_eq.
      apply request_wf in Er as (? & ? & Hr); [ | exact Hwf].
      simpl in *. split; [done | ]. split; [done | ].
      intros id [= ->]. by apply Hr.
  - unfold listTools in E.
    destruct (negb _).
    + simplify_eq. split; [exact Hwf | ]. split; [lia | ]. intros id [=].
    + destruct (request _ _ _ _) as [[c1 w1] r1] eqn:Er. simplify_eq.
      apply request_wf in Er as (? & ? & Hr); [ | exact Hwf].
      split; [done | ]. split; [done | ].
      intros id [= ->]. by apply Hr.
  - simplify_eq. split; [exact Hwf | ]. split; [simpl; lia | ]. intros id [=].
  - destruct (stdout_data c data) as [c1 w1] eqn:Ed. simplify_eq.
    apply stdout_data_fields in Ed as (_ & En & Hr).
    destruct Hwf as [Hn Hreg].
    split; [split | split]; rewrite ?En; try lia; [ | intros id [=]].
    intros id [a Ha]. apply Hreg.
    destruct Hr as [Hr | [k Hr]]; rewrite Hr in Ha; [eauto | ].
    apply lookup_delete_Some in Ha as [_ Ha]. eauto.
  - simplify_eq. split; [exact Hwf | ]. split; [simpl; lia | ]. intros id [=].
Qed.

Lemma run_wf ops : forall c c' t,
  run c ops = (c', t) -> wf c ->
  wf c' /\ nextRequestId c <= nextRequestId c'
  /\ Forall (fun id => nextRequestId c <= id < nextRequestId c') (issued t)
  /\ StronglySorted Z.lt (issued t).
Proof.
  induction ops as [ | o ops IH]; intros c c' t E Hwf; simpl in E.
  - simplify_eq. split; [exact Hwf | ]. split; [lia | ]. split; constructor.
  - destruct (step c o) as [[c1 w] r] eqn:Es.
    destruct (run c1 ops) as [c2 t2] eqn:Er. simplify_eq.
    apply step_wf in Es as (Hwf1 & Hle1 & Hr); [ | exact Hwf].
    apply IH in Er as (Hwf2 & Hle2 & Hall & Hsorted); [ | exact Hwf1].
    split; [exact Hwf2 | ]. split; [lia | ].
    unfold issued; simpl. fold (issued t2).
    destruct r as [[e | id | ] | ]; simpl;
      try (split; [eapply Forall_impl; [exact Hall | simpl; intros; lia]
                  | exact Hsorted]).
    destruct (Hr id eq_refl) as (-> & Hn & _).
    split.
    + constructor; [lia | ].
      eapply Forall_impl; [exact Hall | simpl; intros; lia].
    + constructor; [exact Hsorted | ].
      eapply Forall_impl; [exact Hall | simpl; intros; lia].
Qed.

(** C4. Whatever calls and events a session of a new client goes
    through, the identifiers assigned to its requests are strictly
    increasing (each greater than all assigned before it, none used
    twice) and start at 1; the registry holds one callback per identifier,
    all under identifiers already assigned, so that the next request never
    registers over a pending one. *)
Theorem request_identifiers_increase (ops : list op) :
  let c := (run newClient ops).1 in
  let ids := issued (run newClient ops).2 in
  StronglySorted Z.lt ids
  /\ Forall (fun id => 1 <= id < nextRequestId c) ids
  /\ NoDup (map_to_list (_responseHandlers c)).*1
  /\ (forall id, is_Some (_responseHandlers c !! id) ->
        1 <= id < nextRequestId c)
  /\ _responseHandlers c !! nextRequestId c = None.
Proof.
  destruct (run newClient ops) as [c t] eqn:E; simpl.
  apply run_wf in E as ((Hn & Hreg) & _ & Hall & Hsorted);
    [ | exact wf_newClient].
  split; [exact Hsorted | ]. split; [exact Hall | ].
  split; [apply NoDup_fst_map_to_list | ]. split; [exact Hreg | ].
  destruct (_responseHandlers c !! nextRequestId c) eqn:El; [ | done].
  specialize (Hreg _ (mk_is_Some _ _ El)). lia.
Qed.

(** ** Responses that reach no callback *)

Lemma effects_cons w r t : effects ((w, r) :: t) = w ++ effects t.
Proof. reflexivity. Qed.

Lemma stdout_data_quiet c data :
  after (handleServerOutput c data) = c ->
  settled (handleServerOutput c data) = None ->
  stdout_data c data = (c, []).
Proof. unfold stdout_data. by intros -> ->. Qed.

(** A chunk served a second time, as by a listener attached twice,
    changes nothing more. *)
Lemma stdout_data_again c data :
  stdout_data (stdout_data c data).1 data = ((stdout_data c data).1, []).
Proof.
  unfold stdout_data at 2 3.
  destruct (settled (handleServerOutput c data)) as [[[a k] o] | ] eqn:Es.
  - rewrite handleServerOutput_frame in Es.
    destruct (frame data) as [response | ] eqn:Ef; [ | discriminate].
    unfold deliver in Es.
    destruct (Js.get _ _) as [id | ] eqn:Eid; [ | discriminate].
    destruct (Js.truthy id) eqn:Et; [ | discriminate].
    destruct (key id) as [k' | ] eqn:Ek; [ | discriminate]. simpl in Es.
    destruct (_responseHandlers c !! k') as [a' | ] eqn:El;
      [ | discriminate]. simpl in Es.
    destruct (callback response) as [o' | ] eqn:Ec; [ | discriminate].
    simpl in Es. simplify_eq.
    assert (after (handleServerOutput c data)
            = set_responseHandlers (delete k (_responseHandlers c)) c) as ->.
    { rewrite handleServerOutput_frame, Ef. unfold deliver.
      rewrite Eid, Et, Ek. simpl. by rewrite El, Ec. }
    destruct (resume _ a k o) as [c1 w1] eqn:Er. simpl.
    apply resume_fields in Er as (_ & _ & Hr). simpl in Hr.
    apply stdout_data_quiet;
      rewrite handleServerOutput_frame, Ef; unfold deliver;
      rewrite Eid, Et, Ek; simpl; by rewrite Hr, lookup_delete_eq.
  - destruct (handleServerOutput_after c data)
      as [[Ha _] | (? & ? & ? & _ & _ & Hs)]; [ | congruence].
    rewrite Ha. simpl. apply stdout_data_quiet; [exact Ha | exact Es].
Qed.

(** C7. A response whose [id] is not a key of the registry is dropped:
    the client is left as it was, no callback is called, no promise is
    settled and nothing is written; the handler returns normally. *)
Theorem unsolicited_response_dropped (c : Client) (data : string)
    (response : json) :
  frame data = Some response ->
  registered c response = None ->
  let d := handleServerOutput c data in
  after d = c /\ settled d = None /\ calls (accesses d) = []
  /\ stdout_data c data = (c, []).
Proof.
  intros Hf Hreg. cbv zeta.
  assert (after (handleServerOutput c data) = c
          /\ settled (handleServerOutput c data) = None
          /\ calls (accesses (handleServerOutput c data)) = [])
    as (Ha & Hs & Hc).
  { rewrite handleServerOutput_frame, Hf. unfold deliver.
    unfold registered in Hreg.
    destruct (Js.get _ _) as [id | ]; [ | done].
    destruct (Js.truthy id); [ | done].
    simpl in Hreg.
    destruct (key id) as [k | ]; [ | done].
    simpl in *. by rewrite Hreg. }
  auto using stdout_data_quiet.
Qed.

(** C10. A frame that parses to an object whose [id] is absent or zero
    leads to no access to the registry at all and to no call of a
    callback, whatever the registry holds, a callback under identifier 0
    included; and no session ever registers a callback under 0. *)
Theorem zero_identifier_never_dispatched (c : Client) (data : string)
    (response : json) :
  frame data = Some response ->
  no_identifier response = true ->
  handleServerOutput c data = quiet c
  /\ stdout_data c data = (c, [])
  /\ forall ops, _responseHandlers (run newClient ops).1 !! 0 = None.
Proof.
  intros Hf Hz.
  assert (handleServerOutput c data = quiet c) as Hq.
  { rewrite handleServerOutput_frame, Hf. unfold deliver.
    destruct response as [ | | | | | fields | ]; try discriminate.
    simpl in *.
    destruct (Js.own fields "id") as [[ | | m e | | | | ] | ];
      try discriminate; simpl; [ | done].
    by rewrite Hz. }
  split; [exact Hq | ]. split.
  - apply stdout_data_quiet; by rewrite Hq.
  - intros ops. destruct (run newClient ops) as [c' t] eqn:E; simpl.
    apply run_wf in E as ((_ & Hreg) & _); [ | exact wf_newClient].
    destruct (_responseHandlers c' !! 0) eqn:El; [ | done].
    specialize (Hreg _ (mk_is_Some _ _ El)). lia.
Qed.

(** ** Calls outside a connection *)

Lemma step_newClient o :
  is_connect o = false ->
  exists r, step newClient o = (newClient, [], r).
Proof.
  destruct o as [p | | | data | ]; intros Ho; try discriminate;
    simpl; eauto.
  assert (stdout_data newClient data = (newClient, [])) as ->; [ | eauto].
  destruct (handleServerOutput_after newClient data)
    as [[Ha Hs] | (k & a & o & Hk & _)].
  - by apply stdout_data_quiet.
  - simpl in Hk. by rewrite lookup_empty in Hk.
Qed.

(** C8. As long as [connect] has not been called, whatever else has
    happened, the client is the new client, nothing has been written, and
    [listTools] (as the request method under it) hands back a promise
    already rejected with [Not connected to a server], writes nothing and
    leaves every field as it was. *)
Theorem call_before_connect (ops : list op) :
  forallb (fun o => negb (is_connect o)) ops = true ->
  let c := (run newClient ops).1 in
  c = newClient
  /\ effects (run newClient ops).2 = []
  /\ listTools c = (c, [], Failed (Error "Not connected to a server"))
  /\ forall method params a,
       request c method params a
       = (c, [], Failed (Error "Not connected to a server")).
Proof.
  intros Hops. cbv zeta.
  assert ((run newClient ops).1 = newClient
          /\ effects (run newClient ops).2 = []) as [-> ->].
  { induction ops as [ | o ops IH]; [done | ].
    simpl in Hops. apply andb_true_iff in Hops as [Ho Hops].
    apply negb_true_iff in Ho.
    destruct (step_newClient o Ho) as [r Er].
    simpl. rewrite Er.
    destruct (run newClient ops) as [c t]. simpl in *.
    destruct (IH Hops) as [-> Ht]. by rewrite effects_cons, Ht. }
  repeat split; reflexivity.
Qed.

(** What [handleServerOutput] does with a chunk depends on the registry
    alone. *)
Lemma handleServerOutput_registry c c' data :
  _responseHandlers c' = _responseHandlers c ->
  accesses (handleServerOutput c' data) = accesses (handleServerOutput c data)
  /\ settled (handleServerOutput c' data) = settled (handleServerOutput c data).
Proof.
  intros Hr. rewrite !handleServerOutput_frame.
  destruct (frame data) as [response | ]; [ | done].
  unfold deliver. rewrite Hr.
  destruct (Js.get _ _) as [id | ]; [ | done].
  destruct (Js.truthy id); [ | done].
  destruct (key id ≫= _) as [[k a] | ]; [ | done].
  by destruct (callback response).
Qed.

(** C9. [disconnect] clears the connection flag and the process reference
    and does nothing else: the registry and the next identifier are as
    before, no promise is settled and no process is killed; killing the
    child is left to the owner of the process, as the [SIGINT] handler of
    [main] does after it.  What was pending is still served: a chunk
    arriving afterwards is dispatched as it would have been before. *)
Theorem disconnect_keeps_registry (c : Client) (p : proc) :
  let '(c', w) := disconnect c in
  isConnected c' = false /\ serverProcess c' = None
  /\ _responseHandlers c' = _responseHandlers c
  /\ nextRequestId c' = nextRequestId c
  /\ w = []
  /\ sigint c p = (c', [Kill p])
  /\ forall data,
       accesses (handleServerOutput c' data)
       = accesses (handleServerOutput c data)
       /\ settled (handleServerOutput c' data)
          = settled (handleServerOutput c data).
Proof.
  unfold disconnect.
  repeat (split; [reflexivity | ]).
  intros data. by apply handleServerOutput_registry.
Qed.

Lemma request_keeps_pending c method params a c' w r :
  wf c -> request c method params a = (c', w, r) ->
  (forall id b, _responseHandlers c !! id = Some b ->
     _responseHandlers c' !! id = Some b)
  /\ forallb (fun e => negb (is_settle e)) w = true.
Proof.
  intros [_ Hreg] E. unfold request in E.
  destruct (serverProcess c) as [p | ] eqn:Ep; simpl in E.
  - rewrite Ep in E. injection E as <- <- <-. simpl. split; [ | done].
    intros id b Hid. rewrite lookup_insert_ne; [done | ].
    specialize (Hreg id (mk_is_Some _ _ Hid)). lia.
  - injection E as <- <- <-. auto.
Qed.

Lemma step_keeps_pending c o c' w r :
  wf c -> is_data o = false -> step c o = (c', w, r) ->
  (forall id a, _responseHandlers c !! id = Some a ->
     _responseHandlers c' !! id = Some a)
  /\ forallb (fun e => negb (is_settle e)) w = true.
Proof.
  intros Hwf Ho E.
  destruct o as [p | | | data | ]; try discriminate; simpl in E.
  - unfold connect, initialize in E.
    destruct (isConnected c); [simplify_eq; auto | ].
    destruct (request _ _ _ _) as [[c1 w1] r1] eqn:Er. simplify_eq.
    apply request_keeps_pending in Er as [Hkeep Hw]; [ | exact Hwf].
    split; [exact Hkeep | exact Hw].
  - unfold listTools in E.
    destruct (negb _); [simplify_eq; auto | ].
    destruct (request _ _ _ _) as [[c1 w1] r1] eqn:Er. simplify_eq.
    by apply request_keeps_pending in Er.
  - simplify_eq. auto.
  - simplify_eq. auto.
Qed.

(** As long as no data arrives from the child, what is pending stays
    pending: registered and not settled. *)
Lemma run_keeps_pending ops : forall c,
  wf c -> forallb (fun o => negb (is_data o)) ops = true ->
  (forall id a, _responseHandlers c !! id = Some a ->
     _responseHandlers (run c ops).1 !! id = Some a)
  /\ forallb (fun e => negb (is_settle e)) (effects (run c ops).2) = true.
Proof.
  induction ops as [ | o ops IH]; intros c Hwf Hops; simpl; [done | ].
  simpl in Hops. apply andb_true_iff in Hops as [Ho Hops].
  apply negb_true_iff in Ho.
  destruct (step c o) as [[c1 w] r] eqn:Es.
  destruct (step_keeps_pending _ _ _ _ _ Hwf Ho Es) as [Hkeep Hw].
  apply step_wf in Es as (Hwf1 & _); [ | exact Hwf].
  specialize (IH c1 Hwf1 Hops).
  destruct (run c1 ops) as [c2 t]. simpl in *. destruct IH as [Hkeep' Ht].
  split; [auto | ].
  rewrite effects_cons, forallb_app. by rewrite Hw, Ht.
Qed.

(** C1, as the code has it.  When the child exits, at any point of any
    session, the [close] listener clears the connection flag and the
    process reference and does nothing else: the registry is left as it
    was and no pending callback is called; what was pending stays
    registered and unsettled for as long as no response to it arrives. *)
Theorem close_keeps_registry (history future : list op) :
  forallb (fun o => negb (is_data o)) future = true ->
  let c := (run newClient history).1 in
  let '(c', w) := close c in
  isConnected c' = false /\ serverProcess c' = None
  /\ _responseHandlers c' = _responseHandlers c
  /\ nextRequestId c' = nextRequestId c
  /\ w = []
  /\ (forall id a, _responseHandlers c !! id = Some a ->
        _responseHandlers (run c' future).1 !! id = Some a)
  /\ forallb (fun e => negb (is_settle e)) (effects (run c' future).2) = true.
Proof.
  intros Hfuture. cbv zeta.
  destruct (run newClient history) as [c t] eqn:E. simpl.
  apply run_wf in E as (Hwf & _); [ | exact wf_newClient].
  repeat (split; [reflexivity | ]).
  apply (run_keeps_pending future
           (set_serverProcess None (set_isConnected false c)));
    [exact Hwf | exact Hfuture].
Qed.

(** C2, as the code has it.  Each chunk is handled on its own: when
    neither of two chunks is by itself a text in braces that parses,
    nothing is decoded from them, no callback is called and the client is
    left as it was, whatever the two make when put together. *)
Theorem split_frame_is_lost (c : Client) (chunk1 chunk2 : string) :
  frame chunk1 = None ->
  frame chunk2 = None ->
  omap frame [chunk1; chunk2] = []
  /\ feed c [chunk1; chunk2] = (c, [])
  /\ run c [StdoutData chunk1; StdoutData chunk2]
     = (c, [([], None); ([], None)]).
Proof.
  intros H1 H2.
  assert (forall x, frame x = None -> handleServerOutput c x = quiet c) as Hq.
  { intros x Hx. by rewrite handleServerOutput_frame, Hx. }
  assert (forall x, frame x = None -> stdout_data c x = (c, [])) as Hs.
  { intros x Hx. apply stdout_data_quiet; by rewrite Hq. }
  split; [simpl; by rewrite H1, H2 | ].
  split; simpl; by rewrite ?Hs, ?Hq.
Qed.

(** C3, as the code has it.  [connect] is refused on a connected client,
    which is left as it was and writes nothing; on a client that is not
    connected, one in the middle of a handshake included, it starts a
    handshake: it attaches its listeners and sends [initialize] under the
    next identifier. *)
Theorem connect_guard (r h : Client) (p : proc) :
  isConnected r = true ->
  isConnected h = false ->
  connect r p = (r, [], Failed (Error "Client is already connected to a server"))
  /\ connect h p
     = (set_responseHandlers
          (<[nextRequestId h := AwaitConnect]> (_responseHandlers h))
          (set_nextRequestId (nextRequestId h + 1)
             (set_serverProcess (Some p) h)),
        [Listen p;
         Write p
           (JSON_stringify (JsonRpcRequest (nextRequestId h) "initialize" initParams)
              +:+ newline)],
        Awaiting (nextRequestId h)).
Proof.
  intros Hr Hh. unfold connect. rewrite Hr, Hh. split; reflexivity.
Qed.

(** ** The handshake *)

Lemma step_idle c o c' w r :
  idle c -> is_connect o = false -> step c o = (c', w, r) ->
  idle c'
  /\ (r = None \/ r = Some (Failed (Error "Not connected to a server")))
  /\ forallb (fun e => negb (is_write e)) w = true.
Proof.
  intros [Hc Hreg] Ho E.
  destruct o as [p | | | data | ]; try discriminate; simpl in E.
  - unfold listTools in E. rewrite Hc in E. simpl in E. simplify_eq.
    split; [by split | ]. auto.
  - simplify_eq. split; [by split | ]. auto.
  - destruct (stdout_data c data) as [c1 w1] eqn:Ed. simplify_eq.
    unfold stdout_data in Ed.
    destruct (handleServerOutput_after c data)
      as [[Ha Hs] | (k & a & o & Hk & Ha & Hs)]; rewrite Hs, Ha in Ed.
    + simplify_eq. split; [by split | ]. auto.
    + destruct a; [by destruct (Hreg k) | ].
      unfold resume, listTools_resume in Ed. simplify_eq.
      split; [split; simpl; [done | ] | auto].
      intros k' Hk'. apply lookup_delete_Some in Hk' as [_ Hk'].
      by destruct (Hreg k').
  - simplify_eq. split; [by split | ]. auto.
Qed.

(** Without a call of [connect], a client on which no handshake is under
    way stays disconnected, refuses every [listTools] and writes nothing. *)
Lemma run_idle ops : forall c,
  idle c -> forallb (fun o => negb (is_connect o)) ops = true ->
  idle (run c ops).1
  /\ Forall (fun x => x.2 = None
                      \/ x.2 = Some (Failed (Error "Not connected to a server")))
       (run c ops).2
  /\ forallb (fun e => negb (is_write e)) (effects (run c ops).2) = true.
Proof.
  induction ops as [ | o ops IH]; intros c Hidle Hops; simpl.
  - split; [done | ]. split; [constructor | done].
  - simpl in Hops. apply andb_true_iff in Hops as [Ho Hops].
    apply negb_true_iff in Ho.
    destruct (step c o) as [[c1 w] r] eqn:Es.
    destruct (step_idle _ _ _ _ _ Hidle Ho Es) as (Hidle1 & Hr & Hw).
    specialize (IH c1 Hidle1 Hops).
    destruct (run c1 ops) as [c2 t]. simpl in *.
    destruct IH as (? & ? & Ht).
    split; [done | ]. split; [by constructor | ].
    rewrite effects_cons, forallb_app. by rewrite Hw, Ht.
Qed.

(** C5. When the response to the pending [initialize] request carries an
    error object with a message and a code, the promise of [connect] is
    rejected with the error [Request failed: <message> (<code>)] and the
    client is not connected; from then on, as long as [connect] is not
    called again, it stays disconnected, every [listTools] is refused and
    nothing is written. *)
Theorem initialize_error_fails_connect (c : Client) (data : string)
    (fields error : list (string * json)) (m e k : Z) (message : string)
    (code code_e : Z) (ops : list op) :
  frame data = Some (JObject fields) ->
  Js.own fields "id" = Some (JNumber m e) ->
  m <> 0 ->
  Js.integer m e = Some k ->
  handshakes c = {[k := AwaitConnect]} ->
  isConnected c = false ->
  Js.own fields "error" = Some (JObject error) ->
  Js.own error "message" = Some (JString message) ->
  Js.own error "code" = Some (JNumber code code_e) ->
  forallb (fun o => negb (is_connect o)) ops = true ->
  let c' := (stdout_data c data).1 in
  (stdout_data c data).2
  = [Settle AwaitConnect k
       (Rejected (Error ("Request failed: " +:+ message +:+ " ("
                         +:+ Number_toString code code_e +:+ ")")))]
  /\ isConnected c' = false
  /\ _responseHandlers c' = delete k (_responseHandlers c)
  /\ isConnected (run c' ops).1 = false
  /\ Forall (fun x => x.2 = None
                      \/ x.2 = Some (Failed (Error "Not connected to a server")))
       (run c' ops).2
  /\ forallb (fun e => negb (is_write e)) (effects (run c' ops).2) = true.
Proof.
  intros Hf Hid Hm Hk Hhs Hc Herr Hmsg Hcode Hops. cbv zeta.
  assert (forall k', _responseHandlers c !! k' = Some AwaitConnect <-> k' = k)
    as Honly.
  { intros k'. split.
    - intros Hk'.
      assert (handshakes c !! k' = Some AwaitConnect) as Hin
        by (apply map_lookup_filter_Some; by split).
      rewrite Hhs in Hin. by apply lookup_singleton_Some in Hin as [? _].
    - intros ->.
      assert (handshakes c !! k = Some AwaitConnect) as Hin
        by (rewrite Hhs; apply lookup_singleton_eq).
      by apply map_lookup_filter_Some in Hin as [? _]. }
  assert (_responseHandlers c !! k = Some AwaitConnect) as Hreg
    by by apply Honly.
  assert (stdout_data c data
          = (set_responseHandlers (delete k (_responseHandlers c)) c,
             [Settle AwaitConnect k
                (Rejected (Error ("Request failed: " +:+ message +:+ " ("
                                  +:+ Number_toString code code_e +:+ ")")))]))
    as ->.
  { unfold stdout_data. rewrite handleServerOutput_frame, Hf.
    unfold deliver, callback. simpl. rewrite Hid. simpl.
    apply Z.eqb_neq in Hm. rewrite Hm, Hk. simpl. rewrite Hreg. simpl.
    rewrite Herr. simpl. rewrite Hmsg, Hcode. reflexivity. }
  simpl.
  assert (idle (set_responseHandlers (delete k (_responseHandlers c)) c))
    as Hidle.
  { split; [exact Hc | ]. simpl. intros k' Hk'.
    apply lookup_delete_Some in Hk' as [Hne Hk']. by apply Hne, eq_sym, Honly. }
  destruct (run_idle ops _ Hidle Hops) as ([Hc' _] & Hr & Hw).
  auto 10.
Qed.

Lemma shown_plain v : plain v = true -> is_Some (shown v).
Proof.
  destruct v as [[ | | | s | | | ] | ]; try discriminate; intros _;
    unfold shown; simpl; [destruct (negb _) | ]; eauto.
Qed.

Lemma report_plain fields :
  plain (Js.own fields "protocolVersion") = true ->
  match Js.own fields "serverInfo" with
  | Some (JObject info) =>
      plain (Js.own info "name") && plain (Js.own info "version")
  | Some _ => false
  | None => true
  end = true ->
  report (Some (JObject fields)) = Some ().
Proof.
  intros Hp Hi. unfold report. simpl.
  destruct (shown_plain _ Hp) as [s ->]. simpl.
  destruct (Js.own fields "serverInfo") as [[ | | | | | info | ] | ];
    try discriminate; [ | done].
  simpl. apply andb_true_iff in Hi as [Hn Hv].
  destruct (shown_plain _ Hn) as [sn ->].
  destruct (shown_plain _ Hv) as [sv ->]. reflexivity.
Qed.

(** The handshake completing: on a response to the pending [initialize]
    request with no error and a result the success report accepts, the
    client writes the [notifications/initialized] notification, which has
    no [id], becomes connected and settles the promise of [connect];
    [listTools] then sends [tools/list] under the next identifier. *)
Theorem initialize_success (c : Client) (data : string)
    (fields : list (string * json)) (m e k : Z) (p : proc) (result : json) :
  frame data = Some (JObject fields) ->
  Js.own fields "id" = Some (JNumber m e) ->
  m <> 0 ->
  Js.integer m e = Some k ->
  _responseHandlers c !! k = Some AwaitConnect ->
  serverProcess c = Some p ->
  Js.truthy (Js.own fields "error") = false ->
  Js.own fields "result" = Some result ->
  report (Some result) = Some () ->
  let c' := set_isConnected true
              (set_responseHandlers (delete k (_responseHandlers c)) c) in
  stdout_data c data
  = (c',
     [Write p
        (JSON_stringify
           (JsonRpcNotification "notifications/initialized" (JObject []))
         +:+ newline);
      Settle AwaitConnect k (Fulfilled undefined)])
  /\ Js.get (Some (JsonRpcNotification "notifications/initialized" (JObject [])))
       "id" = Some undefined
  /\ listTools c'
     = (set_responseHandlers
          (<[nextRequestId c := AwaitListTools]> (_responseHandlers c'))
          (set_nextRequestId (nextRequestId c + 1) c'),
        [Write p
           (JSON_stringify (JsonRpcRequest (nextRequestId c) "tools/list" (JObject []))
            +:+ newline)],
        Awaiting (nextRequestId c)).
Proof.
  intros Hf Hid Hm Hk Hreg Hp Herr Hres Hrep. cbv zeta.
  split; [ | split; [reflexivity | ]].
  - unfold stdout_data. rewrite handleServerOutput_frame, Hf.
    unfold deliver, callback. simpl. rewrite Hid. simpl.
    apply Z.eqb_neq in Hm. rewrite Hm, Hk. simpl. rewrite Hreg. simpl.
    rewrite Herr, Hres. simpl.
    unfold initialize_resume. rewrite Hrep.
    unfold notification. simpl. by rewrite Hp.
  - unfold listTools, request. simpl. by rewrite Hp.
Qed.

End Properties.

(** * The scenarios of the specification, evaluated *)

Import Scenario.

(** The handshake of the specification: [initialize] goes out as request
    1, its successful answer makes the client connected and the
    notification, which has no [id], follows. *)
Example handshake_success :
  run newClient [CallConnect child; StdoutData initialize_ok]
  = (ready,
     [([Listen child;
        Write child
          (Text.wire "{'jsonrpc':'2.0','id':1,'method':'initialize','params':{'protocolVersion':'2024-11-05','capabilities':{'roots':{'listChanged':true},'sampling':{}},'clientInfo':{'name':'MCPStudyClient','version':'1.0.0'}}}"
           +:+ newline)],
       Some (Awaiting 1));
      ([Write child
          (Text.wire "{'jsonrpc':'2.0','method':'notifications/initialized','params':{}}"
           +:+ newline);
        Settle AwaitConnect 1 (Fulfilled undefined)],
       None)])
  /\ isConnected ready = true.
Proof. split; vm_compute; reflexivity. Qed.

(** The failed handshake of the specification: the error answer to
    request 1 rejects the promise of [connect] with the code and the
    message of the error. *)
Example handshake_failure :
  effects (run newClient [CallConnect child; StdoutData initialize_error]).2
  = [Listen child;
     Write child
       (JSON_stringify (JsonRpcRequest 1 "initialize" initParams) +:+ newline);
     Settle AwaitConnect 1
       (Rejected (Error "Request failed: boom (-32000)"))]
  /\ isConnected
       (run newClient [CallConnect child; StdoutData initialize_error]).1
     = false.
Proof. split; vm_compute; reflexivity. Qed.

(** Responses delivered in the reverse order of their requests reach each
    its own callback. *)
Example responses_out_of_order :
  effects
    (run pending23
       [StdoutData (Text.wire "{'jsonrpc':'2.0','id':3,'result':'three'}");
        StdoutData (Text.wire "{'jsonrpc':'2.0','id':2,'result':'two'}")]).2
  = [Settle AwaitListTools 3 (Fulfilled (Some (JString "three")));
     Settle AwaitListTools 2 (Fulfilled (Some (JString "two")))].
Proof. vm_compute; reflexivity. Qed.

(** C1, counterexample.  With the calls 2 and 3 pending, the exit of the
    child fails neither and leaves both in the registry. *)
Lemma close_does_not_drain :
  _responseHandlers pending23 !! 2 = Some AwaitListTools
  /\ _responseHandlers pending23 !! 3 = Some AwaitListTools
  /\ ~ drains pending23.
Proof.
  split; [reflexivity | ]. split; [reflexivity | ].
  unfold drains, close. cbv beta iota zeta. intros [Hempty _].
  apply (f_equal (fun m => m !! 2)) in Hempty.
  vm_compute in Hempty. discriminate.
Qed.

(** C2, counterexample.  The frame of the specification, cut in the
    middle of the key [id], is a response to the pending request 1 when it
    comes in one chunk; in two chunks nothing is decoded and the callback
    is not called. *)
Lemma split_frame_not_reassembled :
  frame (chunk1 +:+ chunk2)
  = Some (JObject [("jsonrpc", JString "2.0"); ("id", JNumber 1 0);
                   ("result", JObject [])])
  /\ frame chunk1 = None
  /\ frame chunk2 = None
  /\ length (calls (feed handshaking [chunk1 +:+ chunk2]).2) = 1%nat
  /\ ~ reassembles handshaking chunk1 chunk2.
Proof.
  repeat (split; [vm_compute; reflexivity | ]).
  intros [Hdecoded _]. vm_compute in Hdecoded. discriminate.
Qed.

(** C3, counterexample.  While the first [initialize] is unanswered, a
    second [connect] is not refused: it sends [initialize] again, as
    request 2. *)
Lemma connect_while_handshaking :
  isConnected handshaking = false
  /\ _responseHandlers handshaking !! 1 = Some AwaitConnect
  /\ (connect handshaking child).1.2
     = [Listen child;
        Write child
          (Text.wire "{'jsonrpc':'2.0','id':2,'method':'initialize','params':{'protocolVersion':'2024-11-05','capabilities':{'roots':{'listChanged':true},'sampling':{}},'clientInfo':{'name':'MCPStudyClient','version':'1.0.0'}}}"
           +:+ newline)]
  /\ ~ refuses_connect handshaking child.
Proof.
  repeat (split; [vm_compute; reflexivity | ]).
  intros [e He]. vm_compute in He. discriminate.
Qed.

(** C6, at a response without a usable result.  The answer to
    [initialize] with [id] 1 and [result] [null] carries no
    error, yet reading [protocolVersion] off the result throws: the
    promise of [connect] is rejected with a [TypeError], no notification
    is written and the client is not connected.  The same happens when
    the result is missing, and when the name of the server does not
    convert to text. *)
Theorem initialize_without_result_fails_connect :
  stdout_data handshaking initialize_null
  = (set_responseHandlers ∅ handshaking,
     [Settle AwaitConnect 1 (Rejected TypeError)])
  /\ stdout_data handshaking (Text.wire "{'jsonrpc':'2.0','id':1}")
     = (set_responseHandlers ∅ handshaking,
        [Settle AwaitConnect 1 (Rejected TypeError)])
  /\ stdout_data handshaking initialize_odd_name
     = (set_responseHandlers ∅ handshaking,
        [Settle AwaitConnect 1 (Rejected TypeError)])
  /\ ~ completes_handshake handshaking initialize_null.
Proof.
  repeat (split; [vm_compute; reflexivity | ]).
  unfold completes_handshake.
  intros H. vm_compute in H. destruct H as [H _]. discriminate.
Qed.

(** Witnesses: the theorems at the scenarios of the specification. *)

Lemma close_keeps_registry_witness :
  let history := [CallConnect child; StdoutData initialize_ok;
                  CallListTools; CallListTools] in
  let future := [CallListTools; CallDisconnect; CallConnect child;
                 ChildClose] in
  let c := (run newClient history).1 in
  let '(c', w) := close c in
  isConnected c' = false /\ serverProcess c' = None
  /\ _responseHandlers c' = _responseHandlers c
  /\ nextRequestId c' = nextRequestId c
  /\ w = []
  /\ (forall id a, _responseHandlers c !! id = Some a ->
        _responseHandlers (run c' future).1 !! id = Some a)
  /\ forallb (fun e => negb (is_settle e)) (effects (run c' future).2) = true.
Proof.
  apply (close_keeps_registry
           [CallConnect child; StdoutData initialize_ok;
            CallListTools; CallListTools]
           [CallListTools; CallDisconnect; CallConnect child; ChildClose]).
  vm_compute; reflexivity.
Defined.

Lemma split_frame_is_lost_witness :
  omap frame [chunk1; chunk2] = []
  /\ feed handshaking [chunk1; chunk2] = (handshaking, [])
  /\ run handshaking [StdoutData chunk1; StdoutData chunk2]
     = (handshaking, [([], None); ([], None)]).
Proof.
  apply (split_frame_is_lost handshaking chunk1 chunk2);
    vm_compute; reflexivity.
Defined.

Lemma connect_guard_witness :
  connect ready child
  = (ready, [], Failed (Error "Client is already connected to a server"))
  /\ connect handshaking child
     = (set_responseHandlers
          (<[nextRequestId handshaking := AwaitConnect]>
             (_responseHandlers handshaking))
          (set_nextRequestId (nextRequestId handshaking + 1)
             (set_serverProcess (Some child) handshaking)),
        [Listen child;
         Write child
           (JSON_stringify
              (JsonRpcRequest (nextRequestId handshaking) "initialize" initParams)
            +:+ newline)],
        Awaiting (nextRequestId handshaking)).
Proof.
  apply (connect_guard ready handshaking child); vm_compute; reflexivity.
Defined.

Lemma initialize_error_fails_connect_witness :
  let ops := [CallListTools; StdoutData unsolicited; ChildClose; CallListTools] in
  let c' := (stdout_data handshaking initialize_error).1 in
  (stdout_data handshaking initialize_error).2
  = [Settle AwaitConnect 1
       (Rejected (Error ("Request failed: " +:+ "boom" +:+ " ("
                         +:+ Number_toString (-32000) 0 +:+ ")")))]
  /\ isConnected c' = false
  /\ _responseHandlers c' = delete 1 (_responseHandlers handshaking)
  /\ isConnected (run c' ops).1 = false
  /\ Forall (fun x => x.2 = None
                      \/ x.2 = Some (Failed (Error "Not connected to a server")))
       (run c' ops).2
  /\ forallb (fun e => negb (is_write e)) (effects (run c' ops).2) = true.
Proof.
  apply (initialize_error_fails_connect handshaking initialize_error
           [("id", JNumber 1 0);
            ("error", JObject [("code", JNumber (-32000) 0);
                               ("message", JString "boom")])]
           [("code", JNumber (-32000) 0); ("message", JString "boom")]
           1 0 1 "boom" (-32000) 0
           [CallListTools; StdoutData unsolicited; ChildClose; CallListTools]);
    try (vm_compute; reflexivity).
  lia.
Defined.

Lemma unsolicited_response_dropped_witness :
  let d := handleServerOutput pending23 unsolicited in
  after d = pending23 /\ settled d = None /\ calls (accesses d) = []
  /\ stdout_data pending23 unsolicited = (pending23, []).
Proof.
  apply (unsolicited_response_dropped pending23 unsolicited
           (JObject [("jsonrpc", JString "2.0"); ("id", JNumber 99 0);
                     ("result", JObject [])]));
    vm_compute; reflexivity.
Defined.

Lemma call_before_connect_witness :
  let c := (run newClient
              [CallListTools; StdoutData unsolicited; CallDisconnect;
               ChildClose]).1 in
  c = newClient
  /\ effects (run newClient
                [CallListTools; StdoutData unsolicited; CallDisconnect;
                 ChildClose]).2 = []
  /\ listTools c = (c, [], Failed (Error "Not connected to a server"))
  /\ forall method params a,
       request c method params a
       = (c, [], Failed (Error "Not connected to a server")).
Proof.
  apply (call_before_connect
           [CallListTools; StdoutData unsolicited; CallDisconnect; ChildClose]).
  vm_compute; reflexivity.
Defined.

Lemma zero_identifier_never_dispatched_witness :
  _responseHandlers zero_registered !! 0 = Some AwaitListTools
  /\ handleServerOutput zero_registered id_zero = quiet zero_registered
  /\ stdout_data zero_registered id_zero = (zero_registered, [])
  /\ forall ops, _responseHandlers (run newClient ops).1 !! 0 = None.
Proof.
  split; [vm_compute; reflexivity | ].
  apply (zero_identifier_never_dispatched zero_registered id_zero
           (JObject [("jsonrpc", JString "2.0"); ("id", JNumber 0 0);
                     ("result", JObject [])]));
    vm_compute; reflexivity.
Defined.

(** * Further properties of the client *)

Section Lifecycle.
Context `{ECMAScript}.

Lemma step_next c o c' w r :
  step c o = (c', w, r) ->
  (forall id, r = Some (Awaiting id) ->
     id = nextRequestId c /\ nextRequestId c' = id + 1)
  /\ ((forall id, r <> Some (Awaiting id)) ->
      nextRequestId c' = nextRequestId c).
Proof.
  assert (forall c m ps a c' w r, request c m ps a = (c', w, r) ->
            (forall id, r = Awaiting id ->
               id = nextRequestId c /\ nextRequestId c' = id + 1)
            /\ ((forall id, r <> Awaiting id) ->
                nextRequestId c' = nextRequestId c)) as Hreq.
  { clear. intros c m ps a c' w r E. unfold request in E.
    destruct (serverProcess c) as [p | ] eqn:Ep; simpl in E.
    - rewrite Ep in E. injection E as <- <- <-. simpl.
      split; [by intros id [= <-] | ].
      intros Hno. by destruct (Hno (nextRequestId c)).
    - injection E as <- <- <-. split; [intros id [=] | done]. }
  intros E. destruct o as [p | | | data | ]; simpl in E.
  - unfold connect, initialize in E. destruct (isConnected c).
    + simplify_eq. split; [intros id [=] | done].
    + destruct (request _ _ _ _) as [[c1 w1] r1] eqn:Er. simplify_eq.
      apply Hreq in Er as [Hyes Hno]. simpl in *.
      split; [intros id [= ->]; by apply Hyes | ].
      intros Hr. apply Hno. intros id ->. by destruct (Hr id).
  - unfold listTools in E. destruct (negb _).
    + simplify_eq. split; [intros id [=] | done].
    + destruct (request _ _ _ _) as [[c1 w1] r1] eqn:Er. simplify_eq.
      apply Hreq in Er as [Hyes Hno].
      split; [intros id [= ->]; by apply Hyes | ].
      intros Hr. apply Hno. intros id ->. by destruct (Hr id).
  - simplify_eq. split; [intros id [=] | done].
  - destruct (stdout_data c data) as [c1 w1] eqn:Ed. simplify_eq.
    apply stdout_data_fields in Ed as (_ & -> & _).
    split; [intros id [=] | done].
  - simplify_eq. split; [intros id [=] | done].
Qed.

Lemma run_consecutive ops : forall c,
  nextRequestId c <= nextRequestId (run c ops).1
  /\ issued (run c ops).2
     = seqZ (nextRequestId c) (nextRequestId (run c ops).1 - nextRequestId c).
Proof.
  induction ops as [ | o ops IH]; intros c; simpl.
  - split; [lia | ]. by rewrite Z.sub_diag.
  - destruct (step c o) as [[c1 w] r] eqn:Es.
    specialize (IH c1). destruct (run c1 ops) as [c2 t]. simpl in *.
    destruct IH as [Hle Hids].
    apply step_next in Es as [Hyes Hno].
    unfold issued in *. simpl.
    destruct r as [[e | id | ] | ]; simpl.
    + rewrite (Hno ltac:(congruence)) in *. by split.
    + destruct (Hyes id eq_refl) as [-> Hn]. rewrite Hn in *.
      split; [lia | ].
      rewrite (seqZ_cons (nextRequestId c)) by lia.
      rewrite Hids. f_equal. f_equal; lia.
    + rewrite (Hno ltac:(congruence)) in *. by split.
    + rewrite (Hno ltac:(congruence)) in *. by split.
Qed.

(** X1. In every session the identifiers handed out are exactly 1, 2, 3
    and so on without gaps: a call refused before it sends anything
    ([connect] on a connected client, [listTools] or a request without a
    process) uses up no identifier, and [nextRequestId] is always one more
    than the number of requests sent. *)
Theorem identifiers_consecutive (ops : list op) :
  let c := (run newClient ops).1 in
  let ids := issued (run newClient ops).2 in
  ids = seqZ 1 (Z.of_nat (length ids))
  /\ nextRequestId c = 1 + Z.of_nat (length ids).
Proof.
  cbv zeta. destruct (run_consecutive ops newClient) as [Hle Hids].
  simpl in *. rewrite Hids at 2 3. rewrite length_seqZ.
  rewrite Z2Nat.id by lia. split; [exact Hids | lia].
Qed.

(** ** Settlements *)

Lemma settlements_app w w' :
  settlements (w ++ w') = settlements w ++ settlements w'.
Proof. apply omap_app. Qed.

Lemma writes_app w w' : writes (w ++ w') = writes w ++ writes w'.
Proof. apply omap_app. Qed.

Lemma resume_form c a id o :
  resume c a id o
  = (if becomes_connected a o then set_isConnected true c else c,
     resume_effects (serverProcess c) a id o).
Proof.
  unfold resume_effects, becomes_connected, resume, initialize_resume,
    connect_resume, listTools_resume, notification.
  destruct a; [ | done].
  destruct o as [v | e]; [ | done].
  destruct (report v); [ | done].
  simpl. by destruct (serverProcess c).
Qed.

Lemma resume_effects_settlements p a id o :
  settlements (resume_effects p a id o) = [id].
Proof.
  unfold resume_effects, resume, initialize_resume, connect_resume,
    listTools_resume, notification.
  destruct a; [ | done].
  destruct o as [v | e]; [ | done].
  destruct (report v); [ | done].
  by destruct p.
Qed.

Lemma resume_effects_writes a id o :
  writes (resume_effects None a id o) = [].
Proof.
  unfold resume_effects, resume, initialize_resume, connect_resume,
    listTools_resume, notification.
  destruct a; [ | done].
  destruct o as [v | e]; [ | done].
  by destruct (report v).
Qed.

(** One chunk either settles nothing and leaves the client as it was, or
    settles the one promise registered under the identifier it names. *)
Lemma stdout_data_cases c data :
  stdout_data c data = (c, [])
  \/ exists k a o,
       _responseHandlers c !! k = Some a
       /\ settled (handleServerOutput c data) = Some (a, k, o)
       /\ stdout_data c data
          = (let c' := set_responseHandlers (delete k (_responseHandlers c)) c in
             if becomes_connected a o then set_isConnected true c' else c',
             resume_effects (serverProcess c) a k o).
Proof.
  destruct (handleServerOutput_after c data)
    as [[Ha Hs] | (k & a & o & Hk & Ha & Hs)].
  - left. by apply stdout_data_quiet.
  - right. exists k, a, o. split; [done | ]. split; [done | ].
    unfold stdout_data. rewrite Hs, Ha. by rewrite resume_form.
Qed.

Lemma step_settles c o c' w r :
  step c o = (c', w, r) ->
  (settlements w = []
   /\ forall k, is_Some (_responseHandlers c' !! k) ->
        is_Some (_responseHandlers c !! k) \/ r = Some (Awaiting k))
  \/ exists k,
       settlements w = [k] /\ is_Some (_responseHandlers c !! k)
       /\ _responseHandlers c' = delete k (_responseHandlers c) /\ r = None.
Proof.
  assert (forall c m ps a c' w r, request c m ps a = (c', w, r) ->
            settlements w = []
            /\ forall k, is_Some (_responseHandlers c' !! k) ->
                 is_Some (_responseHandlers c !! k) \/ r = Awaiting k)
    as Hreq.
  { clear. intros c m ps a c' w r E. unfold request in E.
    destruct (serverProcess c) as [p | ] eqn:Ep; simpl in E.
    - rewrite Ep in E. injection E as <- <- <-. simpl.
      split; [done | ]. intros k Hk.
      destruct (decide (k = nextRequestId c)) as [-> | Hne]; [by right | ].
      left. by rewrite lookup_insert_ne in Hk.
    - injection E as <- <- <-. auto. }
  intros E. destruct o as [p | | | data | ]; simpl in E.
  - left. unfold connect, initialize in E. destruct (isConnected c).
    + simplify_eq. auto.
    + destruct (request _ _ _ _) as [[c1 w1] r1] eqn:Er. simplify_eq.
      apply Hreq in Er as [Hw Hk]. simpl in *. split; [done | ].
      intros k Hin. destruct (Hk k Hin) as [? | ->]; auto.
  - left. unfold listTools in E. destruct (negb _).
    + simplify_eq. auto.
    + destruct (request _ _ _ _) as [[c1 w1] r1] eqn:Er. simplify_eq.
      apply Hreq in Er as [Hw Hk]. split; [done | ].
      intros k Hin. destruct (Hk k Hin) as [? | ->]; auto.
  - left. simplify_eq. auto.
  - destruct (stdout_data c data) as [c1 w1] eqn:Ed. simplify_eq.
    destruct (stdout_data_cases c data) as [Hq | (k & a & o & Hk & _ & Hd)];
      rewrite Ed in *; simplify_eq.
    + left. auto.
    + right. exists k. rewrite resume_effects_settlements.
      split; [done | ]. split; [eauto | ]. split; [ | done].
      by destruct (becomes_connected a o).
  - left. simplify_eq. auto.
Qed.

Lemma run_settles ops : forall c,
  wf c ->
  NoDup (settlements (effects (run c ops).2))
  /\ forall k, k ∈ settlements (effects (run c ops).2) ->
       is_Some (_responseHandlers c !! k) \/ k ∈ issued (run c ops).2.
Proof.
  induction ops as [ | o ops IH]; intros c Hwf; simpl.
  - split; [constructor | ]. intros k Hk. by apply not_elem_of_nil in Hk.
  - destruct (step c o) as [[c1 w] r] eqn:Es.
    pose proof (step_wf _ _ _ _ _ Es Hwf) as (Hwf1 & Hle & _).
    pose proof (run_wf ops c1) as Hrun.
    specialize (IH c1 Hwf1).
    destruct (run c1 ops) as [c2 t]. simpl in *.
    destruct (Hrun _ _ eq_refl Hwf1) as (_ & _ & Hall & _).
    destruct IH as [Hnd Hin].
    rewrite effects_cons, settlements_app.
    apply step_settles in Es as [[Hw Hk] | (k & Hw & Hk & Hr & ->)];
      rewrite Hw; simpl.
    + split; [exact Hnd | ]. intros k Hs.
      destruct (Hin k Hs) as [Hreg | Hiss].
      * destruct (Hk k Hreg) as [? | ->]; [by left | ].
        right. simpl. apply elem_of_cons. by left.
      * right. destruct r as [[ | id | ] | ]; simpl; try done.
        apply elem_of_cons. by right.
    + split.
      * apply NoDup_cons. split; [ | exact Hnd]. intros Hs.
        destruct (Hin k Hs) as [Hreg | Hiss].
        -- rewrite Hr, lookup_delete_eq in Hreg. by destruct Hreg.
        -- rewrite Forall_forall in Hall. specialize (Hall k Hiss).
           destruct Hwf as [_ Hreg]. specialize (Hreg k Hk). lia.
      * intros k' Hs. apply elem_of_cons in Hs as [-> | Hs]; [by left | ].
        destruct (Hin k' Hs) as [Hreg | Hiss]; [left | by right].
        rewrite Hr in Hreg. destruct Hreg as [a Ha].
        apply lookup_delete_Some in Ha as [_ Ha]. eauto.
Qed.

(** X2. In every session each promise is settled at most once, and only
    promises of requests that were sent are settled: the identifiers of
    the settlements have no repetition and are all among the identifiers
    handed out. *)
Theorem settled_at_most_once (ops : list op) :
  let t := (run newClient ops).2 in
  NoDup (settlements (effects t))
  /\ forall k, k ∈ settlements (effects t) -> k ∈ issued t.
Proof.
  cbv zeta. destruct (run_settles ops newClient wf_newClient) as [Hnd Hin].
  split; [exact Hnd | ]. intros k Hk.
  destruct (Hin k Hk) as [[a Ha] | ?]; [ | done].
  simpl in Ha. by rewrite lookup_empty in Ha.
Qed.

(** X3. A response delivered a second time, as when the child repeats a
    line or the listener is attached twice, does nothing: the client and
    the effects are those of the first delivery alone. *)
Theorem duplicate_response_ignored (c : Client) (data : string) :
  (run c [StdoutData data; StdoutData data]).1 = (stdout_data c data).1
  /\ effects (run c [StdoutData data; StdoutData data]).2
     = (stdout_data c data).2.
Proof.
  simpl. pose proof (stdout_data_again c data) as Hagain.
  destruct (stdout_data c data) as [c1 w1]. simpl in *. rewrite Hagain.
  unfold effects. simpl. by rewrite app_nil_r.
Qed.

(** ** Without a process *)

Lemma step_no_process c o c' w r :
  serverProcess c = None -> is_connect o = false -> step c o = (c', w, r) ->
  serverProcess c' = None /\ writes w = []
  /\ nextRequestId c' = nextRequestId c
  /\ (r = None \/ r = Some (Failed (Error "Not connected to a server"))).
Proof.
  intros Hp Ho E.
  destruct o as [p | | | data | ]; try discriminate; simpl in E.
  - unfold listTools, request in E. rewrite Hp in E.
    destruct (negb _); simplify_eq; auto.
  - simplify_eq. auto.
  - destruct (stdout_data c data) as [c1 w1] eqn:Ed. simplify_eq.
    destruct (stdout_data_cases c data) as [Hq | (k & a & o & _ & _ & Hd)];
      rewrite Ed in *; simplify_eq; [auto | ].
    cbv zeta. rewrite Hp, resume_effects_writes.
    destruct (becomes_connected a o); simpl; auto.
  - simplify_eq. auto.
Qed.

(** X4. Once the client holds no process, after [disconnect] or after the
    child has closed, it writes nothing to any child and uses up no
    identifier until [connect] is called again: every [listTools] is
    refused with [Not connected to a server], also when [isConnected] is
    set, and responses still arriving settle their promises without any
    notification being sent. *)
Theorem no_write_without_process (c : Client) (ops : list op) :
  serverProcess c = None ->
  forallb (fun o => negb (is_connect o)) ops = true ->
  serverProcess (run c ops).1 = None
  /\ writes (effects (run c ops).2) = []
  /\ nextRequestId (run c ops).1 = nextRequestId c
  /\ Forall (fun x => x.2 = None
                      \/ x.2 = Some (Failed (Error "Not connected to a server")))
       (run c ops).2.
Proof.
  revert c. induction ops as [ | o ops IH]; intros c Hp Hops; simpl.
  - repeat split; [done | constructor].
  - simpl in Hops. apply andb_true_iff in Hops as [Ho Hops].
    apply negb_true_iff in Ho.
    destruct (step c o) as [[c1 w] r] eqn:Es.
    destruct (step_no_process _ _ _ _ _ Hp Ho Es) as (Hp1 & Hw & Hn & Hr).
    specialize (IH c1 Hp1 Hops).
    destruct (run c1 ops) as [c2 t]. simpl in *.
    destruct IH as (? & Ht & ? & ?).
    split; [done | ]. split; [ | split; [congruence | by constructor]].
    by rewrite effects_cons, writes_app, Hw, Ht.
Qed.

(** ** Responses in any order *)

Lemma handleServerOutput_transfer c c' data a k o :
  settled (handleServerOutput c data) = Some (a, k, o) ->
  _responseHandlers c' !! k = Some a ->
  stdout_data c' data
  = (let c'' := set_responseHandlers (delete k (_responseHandlers c')) c' in
     if becomes_connected a o then set_isConnected true c'' else c'',
     resume_effects (serverProcess c') a k o).
Proof.
  intros Hs Hk.
  assert (after (handleServerOutput c' data)
          = set_responseHandlers (delete k (_responseHandlers c')) c'
          /\ settled (handleServerOutput c' data) = Some (a, k, o))
    as [Ha' Hs'].
  { rewrite handleServerOutput_frame in *.
    destruct (frame data) as [response | ]; [ | discriminate].
    unfold deliver in *.
    destruct (Js.get _ _) as [id | ]; [ | discriminate].
    destruct (Js.truthy id); [ | discriminate].
    destruct (key id) as [k' | ]; [ | discriminate]. simpl in *.
    destruct (_responseHandlers c !! k') as [a' | ] eqn:El;
      [ | discriminate]. simpl in *.
    destruct (callback response) as [o' | ]; [ | discriminate].
    simpl in Hs. simplify_eq. by rewrite Hk. }
  unfold stdout_data. rewrite Hs', Ha'. by rewrite resume_form.
Qed.

(** X5. Responses to different pending requests may arrive in either
    order: each has the effects it would have had alone, and the client
    ends in the same state. *)
Theorem responses_commute (c : Client) (d1 d2 : string)
    (a1 a2 : awaiter) (k1 k2 : Z) (o1 o2 : outcome) :
  settled (handleServerOutput c d1) = Some (a1, k1, o1) ->
  settled (handleServerOutput c d2) = Some (a2, k2, o2) ->
  k1 <> k2 ->
  (run c [StdoutData d1; StdoutData d2]).1
  = (run c [StdoutData d2; StdoutData d1]).1
  /\ effects (run c [StdoutData d1; StdoutData d2]).2
     = (stdout_data c d1).2 ++ (stdout_data c d2).2
  /\ effects (run c [StdoutData d2; StdoutData d1]).2
     = (stdout_data c d2).2 ++ (stdout_data c d1).2.
Proof.
  intros H1 H2 Hne.
  assert (_responseHandlers c !! k1 = Some a1) as Hk1.
  { destruct (handleServerOutput_after c d1)
      as [[_ Hs] | (k & a & o & Hk & _ & Hs)]; congruence. }
  assert (_responseHandlers c !! k2 = Some a2) as Hk2.
  { destruct (handleServerOutput_after c d2)
      as [[_ Hs] | (k & a & o & Hk & _ & Hs)]; congruence. }
  simpl.
  rewrite (handleServerOutput_transfer c c d1 a1 k1 o1 H1 Hk1).
  rewrite (handleServerOutput_transfer c c d2 a2 k2 o2 H2 Hk2).
  cbv zeta.
  rewrite (handleServerOutput_transfer c _ d2 a2 k2 o2 H2);
    [ | destruct (becomes_connected a1 o1); simpl;
        by rewrite lookup_delete_ne].
  rewrite (handleServerOutput_transfer c _ d1 a1 k1 o1 H1);
    [ | destruct (becomes_connected a2 o2); simpl;
        by rewrite lookup_delete_ne].
  unfold effects. simpl. rewrite !app_nil_r.
  split; [ | by destruct (becomes_connected a1 o1),
                         (becomes_connected a2 o2)].
  destruct (becomes_connected a1 o1), (becomes_connected a2 o2); simpl;
    unfold set_isConnected, set_responseHandlers; simpl;
    by rewrite (delete_delete _ k2 k1).
Qed.

(** ** A call and its response *)

(** X6. On a connected client a [listTools] call sends one [tools/list]
    request under the next identifier, and the response to it that has no
    error (or a falsy one) settles the call with the [result] member as it
    is, [undefined] when it is missing; afterwards the registry is as it
    was before the call. *)
Theorem listTools_round_trip (c : Client) (p : proc) (data : string)
    (fields : list (string * json)) (m e : Z) :
  isConnected c = true ->
  serverProcess c = Some p ->
  _responseHandlers c !! nextRequestId c = None ->
  frame data = Some (JObject fields) ->
  Js.own fields "id" = Some (JNumber m e) ->
  m <> 0 ->
  Js.integer m e = Some (nextRequestId c) ->
  Js.truthy (Js.own fields "error") = false ->
  (listTools c).1.2
  = [Write p
       (JSON_stringify (JsonRpcRequest (nextRequestId c) "tools/list" (JObject []))
        +:+ newline)]
  /\ (listTools c).2 = Awaiting (nextRequestId c)
  /\ stdout_data (listTools c).1.1 data
     = (set_nextRequestId (nextRequestId c + 1) c,
        [Settle AwaitListTools (nextRequestId c)
           (Fulfilled (Js.own fields "result"))]).
Proof.
  intros Hc Hp Hfree Hf Hid Hm Hk Herr.
  unfold listTools, request. rewrite Hc, Hp. simpl. rewrite Hp. simpl.
  split; [done | ]. split; [done | ].
  unfold stdout_data. rewrite handleServerOutput_frame, Hf.
  unfold deliver, callback. simpl. rewrite Hid. simpl.
  apply Z.eqb_neq in Hm. rewrite Hm, Hk. simpl.
  rewrite lookup_insert_eq. simpl. rewrite Herr. simpl.
  unfold set_responseHandlers, set_nextRequestId. simpl.
  by rewrite delete_insert_id.
Qed.

(** ** Disconnecting in the middle of the handshake *)

(** X7. When [disconnect] is called (or the child closes) while
    [initialize] is unanswered and the successful answer still arrives,
    [connect] completes all the same: the client ends with [isConnected]
    set and no process, having sent no [notifications/initialized]; a
    [listTools] call then passes the connection check and is refused by
    the request method, using up no identifier. *)
Theorem disconnect_during_handshake (c : Client) (data : string)
    (fields : list (string * json)) (m e k : Z) (result : json) :
  frame data = Some (JObject fields) ->
  Js.own fields "id" = Some (JNumber m e) ->
  m <> 0 ->
  Js.integer m e = Some k ->
  _responseHandlers c !! k = Some AwaitConnect ->
  Js.truthy (Js.own fields "error") = false ->
  Js.own fields "result" = Some result ->
  report (Some result) = Some () ->
  let c' := (stdout_data (disconnect c).1 data).1 in
  (disconnect c).1 = (close c).1
  /\ (stdout_data (disconnect c).1 data).2
     = [Settle AwaitConnect k (Fulfilled undefined)]
  /\ isConnected c' = true
  /\ serverProcess c' = None
  /\ listTools c' = (c', [], Failed (Error "Not connected to a server")).
Proof.
  intros Hf Hid Hm Hk Hreg Herr Hres Hrep. cbv zeta.
  split; [reflexivity | ].
  assert (stdout_data (disconnect c).1 data
          = (set_isConnected true
               (set_responseHandlers (delete k (_responseHandlers c))
                  (disconnect c).1),
             [Settle AwaitConnect k (Fulfilled undefined)])) as ->.
  { unfold stdout_data. rewrite handleServerOutput_frame, Hf.
    unfold deliver, callback. simpl. rewrite Hid. simpl.
    apply Z.eqb_neq in Hm. rewrite Hm, Hk. simpl. rewrite Hreg. simpl.
    rewrite Herr, Hres. simpl.
    unfold initialize_resume. by rewrite Hrep. }
  repeat split.
Qed.

(** ** Identifiers that are not numbers *)

(** X8. A response whose [id] is a string, the numeral of a pending
    identifier included, reaches no callback: the registry is keyed by
    numbers, the client is left as it was and the call stays pending. *)
Theorem string_id_never_dispatched (c : Client) (data : string)
    (fields : list (string * json)) (s : string) :
  frame data = Some (JObject fields) ->
  Js.own fields "id" = Some (JString s) ->
  let d := handleServerOutput c data in
  after d = c /\ settled d = None /\ calls (accesses d) = []
  /\ stdout_data c data = (c, []).
Proof.
  intros Hf Hid. cbv zeta.
  assert (after (handleServerOutput c data) = c
          /\ settled (handleServerOutput c data) = None
          /\ calls (accesses (handleServerOutput c data)) = [])
    as (Ha & Hs & Hc).
  { rewrite handleServerOutput_frame, Hf. unfold deliver. simpl.
    rewrite Hid. simpl. by destruct (negb _). }
  auto using stdout_data_quiet.
Qed.

End Lifecycle.

(** * The program around the client *)

Section Program.
Context `{ECMAScript}.

Lemma kills_app w w' : kills (w ++ w') = kills w ++ kills w'.
Proof. apply omap_app. Qed.

Lemma resume_effects_connect sp k o :
  (becomes_connected AwaitConnect o = true
   /\ resume_effects sp AwaitConnect k o
      = match sp with
        | Some p => [Write p initialized_frame]
        | None => []
        end ++ [Settle AwaitConnect k (Fulfilled undefined)])
  \/ (becomes_connected AwaitConnect o = false
      /\ exists e, resume_effects sp AwaitConnect k o
                   = [Settle AwaitConnect k (Rejected e)]).
Proof.
  unfold resume_effects, becomes_connected, resume, initialize_resume,
    connect_resume, notification.
  destruct o as [v | e]; [ | right; eauto].
  destruct (report v); [left | right; eauto].
  split; [done | ]. by destruct sp.
Qed.

Lemma main_inv_start p : main_inv p (main (Some p)).1 (main (Some p)).2.
Proof. repeat split. by left. Qed.

Lemma find_settle_last a id o l :
  settlements l = [] -> find_settle a id (l ++ [Settle a id o]) = Some o.
Proof.
  induction l as [ | x l IH]; intros Hl.
  - simpl. by rewrite bool_decide_eq_true_2, Z.eqb_refl.
  - destruct x; try discriminate; simpl; by apply IH.
Qed.

Lemma listTools_connected c p :
  isConnected c = true -> serverProcess c = Some p ->
  listTools c
  = (set_responseHandlers
       (<[nextRequestId c := AwaitListTools]> (_responseHandlers c))
       (set_nextRequestId (nextRequestId c + 1) c),
     [Write p
        (JSON_stringify (JsonRpcRequest (nextRequestId c) "tools/list" (JObject []))
         +:+ newline)],
     Awaiting (nextRequestId c)).
Proof.
  intros Hc Hp. unfold listTools, request. rewrite Hc, Hp. simpl.
  by rewrite Hp.
Qed.

Lemma listTools_no_process c :
  serverProcess c = None ->
  listTools c = (c, [], Failed (Error "Not connected to a server")).
Proof.
  intros Hp. unfold listTools, request. rewrite Hp. by destruct (negb _).
Qed.

Lemma main_frames_prefix1 p :
  [(p, initialize_frame)] `prefix_of` main_frames p.
Proof. by exists [(p, initialized_frame); (p, tools_list_frame)]. Qed.

Lemma main_step_inv p m w ev :
  main_inv p m w ->
  main_inv p (main_step m ev).1 (w ++ (main_step m ev).2).
Proof.
  destruct m as [c server now]. intros [Hserver Hinv].
  cbn [main_client main_server main_phase] in Hserver, Hinv.
  subst server. unfold main_step. cbn [main_client main_server main_phase].
  destruct now as [id | id | | | code | ].
  - (* awaiting [connect] *)
    destruct Hinv as (-> & Hreg & Hnext & Hc & Hp & Hw & Hk).
    destruct ev as [data | | ].
    + destruct (stdout_data_cases c data) as [-> | (k & a & o & Hka & _ & ->)].
      { cbn. rewrite app_nil_r. repeat split; auto. }
      rewrite Hreg in Hka. apply lookup_singleton_Some in Hka as [<- <-].
      cbv zeta.
      destruct (resume_effects_connect (serverProcess c) 1 o)
        as [[Hb ->] | [Hb [e ->]]]; rewrite Hb.
      * rewrite find_settle_last by (by destruct (serverProcess c)).
        destruct Hp as [Hp | Hp]; rewrite Hp.
        -- rewrite (listTools_connected _ p) by done.
           unfold main_inv.
           cbn [fst snd main_client main_server main_phase
                nextRequestId _responseHandlers set_isConnected
                set_responseHandlers set_nextRequestId].
           rewrite Hnext, Hreg, delete_singleton_eq, insert_empty.
           rewrite !writes_app, !kills_app, Hw, Hk.
           split; [done | ]. split; [done | ]. split; [done | ].
           split; [reflexivity | ]. split; [reflexivity | ].
           rewrite !elem_of_app. right. left. right. apply elem_of_cons.
           by left.
        -- rewrite listTools_no_process by done.
           unfold main_inv, kill.
           cbn [fst snd main_client main_server main_phase].
           rewrite !writes_app, !kills_app, Hw, Hk.
           split; [done | ]. split; [reflexivity | ].
           right. split; [done | ]. apply main_frames_prefix1.
      * pose proof (find_settle_last AwaitConnect 1 (Rejected e) [] eq_refl)
          as Hfind.
        cbn [app] in Hfind. rewrite Hfind.
        unfold main_inv, kill.
        cbn [fst snd main_client main_server main_phase].
        rewrite !writes_app, !kills_app, Hw, Hk.
        split; [done | ]. split; [reflexivity | ].
        right. split; [done | ]. apply main_frames_prefix1.
    + cbn. rewrite app_nil_r. repeat split; auto.
    + cbn. rewrite app_nil_r. repeat split; auto. rewrite Hw.
      apply main_frames_prefix1.
  - (* awaiting [listTools] *)
    destruct Hinv as (-> & Hreg & Hw & Hk & Hs).
    destruct ev as [data | | ].
    + destruct (stdout_data_cases c data) as [-> | (k & a & o & Hka & _ & ->)].
      { cbn. rewrite app_nil_r. repeat split; auto. }
      rewrite Hreg in Hka. apply lookup_singleton_Some in Hka as [<- <-].
      cbv zeta.
      assert (resume_effects (serverProcess c) AwaitListTools 2 o
              = [] ++ [Settle AwaitListTools 2 o]) as -> by done.
      rewrite find_settle_last by done.
      assert (becomes_connected AwaitListTools o = false) as -> by done.
      destruct o as [v | e]; unfold main_inv, kill;
        cbn [fst snd main_client main_server main_phase
             _responseHandlers set_responseHandlers];
        rewrite !writes_app, !kills_app, Hw, Hk, ?Hreg, ?delete_singleton_eq.
      * split; [done | ]. split; [done | ]. split; [reflexivity | ].
        split; [reflexivity | ]. split.
        -- apply elem_of_app. by left.
        -- exists v. apply elem_of_app. right. apply elem_of_cons. by left.
      * split; [done | ]. split; [reflexivity | ].
        right. split; [done | ]. by exists [].
    + cbn. rewrite app_nil_r. repeat split; auto.
    + cbn. rewrite app_nil_r. repeat split; auto. rewrite Hw. by exists [].
  - (* waiting for [SIGINT] *)
    destruct Hinv as (Hreg & Hw & Hk & Hs & Hs').
    destruct ev as [data | | ].
    + destruct (stdout_data_cases c data) as [-> | (k & a & o & Hka & _)].
      { cbn. rewrite app_nil_r. repeat split; auto. }
      rewrite Hreg in Hka. by rewrite lookup_empty in Hka.
    + cbn. rewrite app_nil_r. repeat split; auto.
    + unfold disconnect, main_inv, kill.
      cbn [fst snd main_client main_server main_phase].
      rewrite !writes_app, !kills_app, Hw, Hk.
      split; [done | ]. split; [reflexivity | ]. left. by split.
  - destruct Hinv.
  - cbn. rewrite app_nil_r. by split.
  - cbn. rewrite app_nil_r. by split.
Qed.

Lemma main_run_inv p evs : forall m w,
  main_inv p m w ->
  main_inv p (main_run m evs).1 (w ++ (main_run m evs).2).
Proof.
  induction evs as [ | ev evs IH]; intros m w Hinv; simpl.
  - by rewrite app_nil_r.
  - pose proof (main_step_inv p m w ev Hinv) as Hstep.
    destruct (main_step m ev) as [m1 w1]. simpl in Hstep.
    specialize (IH m1 (w ++ w1) Hstep).
    destruct (main_run m1 evs) as [m2 w2]. simpl in *.
    by rewrite app_assoc.
Qed.

Lemma program_inv p evs :
  main_inv p (program (Some p) evs).1 (program (Some p) evs).2.
Proof.
  unfold program. pose proof (main_inv_start p) as Hstart.
  destruct (main (Some p)) as [m w].
  pose proof (main_run_inv p evs m w Hstart) as Hinv.
  destruct (main_run m evs) as [m' w']. exact Hinv.
Qed.

(** X9. Whatever the child sends and whenever it closes or the user
    interrupts, [main] writes to the child a beginning of the sequence
    [initialize] (request 1), [notifications/initialized], [tools/list]
    (request 2), in this order and nothing else; it waits for [SIGINT]
    only when all three have been written and both requests have been
    answered with success. *)
Theorem main_writes_in_order (p : proc) (evs : list event) :
  let m := (program (Some p) evs).1 in
  let w := (program (Some p) evs).2 in
  writes w `prefix_of` main_frames p
  /\ (main_phase m = Serving ->
      writes w = main_frames p
      /\ Settle AwaitConnect 1 (Fulfilled undefined) ∈ w
      /\ exists v, Settle AwaitListTools 2 (Fulfilled v) ∈ w).
Proof.
  cbv zeta. destruct (program_inv p evs) as [_ Hinv].
  destruct (main_phase _) as [id | id | | | code | ].
  - destruct Hinv as (_ & _ & _ & _ & _ & -> & _).
    split; [ | done]. by exists [(p, initialized_frame); (p, tools_list_frame)].
  - destruct Hinv as (_ & _ & -> & _). by split.
  - destruct Hinv as (_ & -> & _ & ? & ?). by split.
  - destruct Hinv.
  - destruct Hinv as (_ & [[_ ->] | [_ ?]]); by split.
  - destruct Hinv as (_ & ?). by split.
Qed.


End Program.

(** * Finding and starting the server *)

Section Starting.
Context `{ECMAScript} `{Node}.

Lemma findServerPath_locate :
  findServerPath
  = match locate localPackage with
    | Some found => Some found
    | None => locate parentPackage
    end.
Proof.
  unfold findServerPath, locate, localPackage, parentPackage. cbv zeta.
  destruct (existsSync (path_resolve [cwd; "node_modules"; _; _]));
    [ | reflexivity].
  destruct (if existsSync _ then _ else None); [reflexivity | ].
  destruct (existsSync (path_resolve [_; "dist"; "index.js"])); reflexivity.
Qed.



(** X12. A [package.json] in the local package that names a [main] decides
    the result: the script path is that name resolved against the local
    package, whether or not such a file exists and whatever the parent
    directory holds. *)
Theorem findServerPath_main_of_local_package (text : string)
    (fields : list (string * json)) (s : string) :
  existsSync localPackage = true ->
  existsSync (path_resolve [localPackage; "package.json"]) = true ->
  readFileSync (path_resolve [localPackage; "package.json"]) = Some text ->
  JSON_parse text = Some (JObject fields) ->
  Js.own fields "main" = Some (JString s) ->
  s <> "" ->
  findServerPath = Some (path_resolve [localPackage; s]).
Proof.
  intros He Hj Hr Hp Hm Hs.
  rewrite findServerPath_locate. unfold locate. cbv zeta.
  rewrite He, Hj, Hr. simpl. rewrite Hp. simpl. rewrite Hm. simpl.
  destruct (String.eqb_spec s ""); [done | ]. reflexivity.
Qed.


(** X14. When neither package directory exists [findServerPath] throws,
    so that [newServer] starts nothing, whatever directories it is
    given. *)
Theorem newServer_without_package (dirs : list string) :
  existsSync localPackage = false ->
  existsSync parentPackage = false ->
  findServerPath = None /\ newServer dirs = None.
Proof.
  intros Hl Hp.
  assert (findServerPath = None) as Hnone.
  { rewrite findServerPath_locate. unfold locate. by rewrite Hl, Hp. }
  split; [exact Hnone | ]. unfold newServer. by rewrite Hnone.
Qed.

(** X15. When [newServer] starts the server it runs [node] on the script
    found, followed by the directories given on the command line after
    the first two words, [--] left out, in their order; when none is
    left it passes the current directory [.], so the server always gets
    at least one directory and never [--]. *)
Theorem newServer_directories (argv : list string) (child : spawned) :
  newServer (directories argv) = Some child ->
  exists script dirs,
    findServerPath = Some script
    /\ command child = "node"
    /\ args child = script :: dirs
    /\ dirs <> []
    /\ ("--" ∉ dirs)
    /\ dirs = match filter (fun arg => arg <> "--") (drop 2 argv) with
              | [] => ["."]
              | given => given
              end.
Proof.
  unfold newServer. destruct findServerPath as [script | ]; [ | discriminate].
  simpl. intros [= <-]. simpl.
  exists script. eexists. split; [done | ]. split; [done | ].
  split; [done | ].
  unfold directories.
  destruct (filter _ (drop 2 argv)) as [ | d ds] eqn:Ef; simpl.
  - split; [done | ]. split; [ | done].
    intros Hin. apply list_elem_of_singleton in Hin. discriminate.
  - split; [done | ]. split; [ | done].
    rewrite <- Ef. intros Hin. apply list_elem_of_filter in Hin as [Hne _].
    by apply Hne.
Qed.

End Starting.

(** * The tool server *)

Section ToolServer.
Context `{ECMAScript}.
Import Aws.

(** X16. [findEc2Instances] lists every instance of every reservation of
    the reply once, in the order of the reply and with the type [ec2]; a
    reply without reservations, and a reservation without instances, add
    nothing. *)
Theorem instances_listed_in_order (response : DescribeInstancesCommandOutput) :
  id <$> instances_of response
  = InstanceId <$>
      (mbind (M := list) (fun reservation => default [] (Instances reservation))
         (default [] (Reservations response)))
  /\ Forall (fun i => type i = "ec2") (instances_of response)
  /\ (Reservations response = None -> instances_of response = []).
Proof.
  unfold instances_of.
  destruct (Reservations response) as [reservations | ]; simpl;
    [ | by repeat split].
  split; [ | split; [ | discriminate]].
  - induction reservations as [ | r rs IH]; [done | ].
    rewrite !bind_cons, !fmap_app, IH. f_equal.
    destruct (Instances r) as [found | ]; [ | done]. simpl.
    induction found as [ | i found IHi]; [done | ]. simpl. by f_equal.
  - induction reservations as [ | r rs IH]; [constructor | ].
    rewrite bind_cons. apply Forall_app. split; [ | exact IH].
    destruct (Instances r) as [found | ]; [ | constructor]. simpl.
    induction found as [ | i found IHi]; constructor; [done | exact IHi].
Qed.

(** X17. The name listed for an instance is the value of its first tag
    whose key is [Name]: tags with that key further on are not looked at,
    an empty value is kept as it is, and [Unnamed Instance] stands in when
    that first tag has no value, when no tag has the key, and when the
    instance has no tags. *)
Theorem instance_name_first_tag (instance : Instance)
    (before after : list Tag) (tag : Tag) :
  Tags instance = Some (before ++ tag :: after) ->
  Forall (fun t => Key t <> Some "Name") before ->
  Key tag = Some "Name" ->
  instance_name instance = default "Unnamed Instance" (Value tag)
  /\ (forall i ts, Tags i = Some ts ->
        Forall (fun t => Key t <> Some "Name") ts ->
        instance_name i = "Unnamed Instance")
  /\ (forall i, Tags i = None -> instance_name i = "Unnamed Instance").
Proof.
  intros Ht Hb Hk.
  assert (forall ts rest, Forall (fun t => Key t <> Some "Name") ts ->
            List.find (fun t => bool_decide (Key t = Some "Name")) (ts ++ rest)
            = List.find (fun t => bool_decide (Key t = Some "Name")) rest)
    as Hfind.
  { intros ts rest Hts. induction Hts as [ | t ts Hne _ IH]; [done | ].
    simpl. by rewrite bool_decide_eq_false_2. }
  split; [ | split].
  - unfold instance_name. rewrite Ht. simpl. rewrite (Hfind _ _ Hb). simpl.
    by rewrite bool_decide_eq_true_2.
  - intros i ts Hi Hts. unfold instance_name. rewrite Hi. simpl.
    rewrite <- (app_nil_r ts), (Hfind _ _ Hts). reflexivity.
  - intros i Hi. unfold instance_name. by rewrite Hi.
Qed.


(** X19. A call of [find_ec2_instances] whose arguments leave [status] out
    asks EC2 for the instances whose [instance-state-name] is [running],
    as a call that says so does; a named status is passed on as it is.
    When EC2 answers, the result is one content item of type [text]
    holding the listed instances as indented JSON, which is [[]] for a
    reply without reservations; when the request to EC2 fails, so does the
    call. *)
Theorem callTool_find_ec2_instances
    (send : DescribeInstancesCommand -> option DescribeInstancesCommandOutput)
    (fields : list (string * json)) (s : status) :
  Js.own fields "status" = None \/
  Js.own fields "status" = Some (JString (status_text s)) ->
  let s' := match Js.own fields "status" with None => running | _ => s end in
  callTool send "find_ec2_instances" (Some (JObject fields))
  = match send {| Filters := [{| Name := "instance-state-name";
                                 Values := [status_text s'] |}] |} with
    | None => inl SendFailed
    | Some response =>
        inr {| contents :=
                 [{| content_type := "text";
                     text := pretty ""
                               (JArray (listed_json <$> instances_of response)) |}] |}
    end
  /\ (forall response, Reservations response = None ->
        pretty "" (JArray (listed_json <$> instances_of response)) = "[]").
Proof.
  intros Hs. cbv zeta. split.
  - unfold callTool, findEc2Instances, find_command. simpl.
    destruct Hs as [-> | ->]; [by destruct (send _) | ].
    destruct s; simpl; by destruct (send _).
  - intros response Hr. unfold instances_of. by rewrite Hr.
Qed.

End ToolServer.

(** * The further scenarios, evaluated *)

Import More.

(** The start of the program and the end of it on [SIGINT]. *)
Example program_served :
  program (Some child) [EvData initialize_ok; EvData tools; EvSigint]
  = ({| main_client :=
          set_serverProcess None
            (set_isConnected false (set_nextRequestId 3 ready));
        main_server := Some child;
        main_phase := Exited 0 |},
     [Listen child; Write child initialize_frame;
      Write child initialized_frame;
      Settle AwaitConnect 1 (Fulfilled undefined);
      Write child tools_list_frame;
      Settle AwaitListTools 2
        (Fulfilled (Some (JObject [("tools", JArray [])])));
      Kill child]).
Proof. vm_compute; reflexivity. Qed.

(** The handshake refused: [main] kills the child and exits with 1. *)
Example program_refused :
  (program (Some child) [EvData initialize_error; EvData tools]).1
  = {| main_client := set_responseHandlers ∅ handshaking;
       main_server := Some child;
       main_phase := Exited 1 |}
  /\ kills (program (Some child) [EvData initialize_error; EvData tools]).2
     = [child].
Proof. split; vm_compute; reflexivity. Qed.

(** The listing of the reply of the scenario, as the tool returns it. *)
Example find_ec2_instances_text :
  Aws.callTool ec2 "find_ec2_instances" (Some (JObject []))
  = inr {| Aws.contents :=
             [{| Aws.content_type := "text";
                 Aws.text :=
                   "[" +:+ newline
                   +:+ "  {" +:+ newline
                   +:+ Text.wire "    'id': 'i-0abc'," +:+ newline
                   +:+ Text.wire "    'type': 'ec2'," +:+ newline
                   +:+ Text.wire "    'name': 'Unnamed Instance'" +:+ newline
                   +:+ "  }" +:+ newline
                   +:+ "]" |}] |}.
Proof. vm_compute; reflexivity. Qed.

Lemma no_write_without_process_witness :
  let ops := [CallListTools; StdoutData answer2; ChildClose; CallListTools] in
  serverProcess (run disconnected ops).1 = None
  /\ writes (effects (run disconnected ops).2) = []
  /\ nextRequestId (run disconnected ops).1 = nextRequestId disconnected
  /\ Forall (fun x => x.2 = None
                      \/ x.2 = Some (Failed (Error "Not connected to a server")))
       (run disconnected ops).2.
Proof.
  apply (no_write_without_process disconnected
           [CallListTools; StdoutData answer2; ChildClose; CallListTools]);
    vm_compute; reflexivity.
Defined.

Lemma responses_commute_witness :
  (run pending23 [StdoutData answer3; StdoutData answer2]).1
  = (run pending23 [StdoutData answer2; StdoutData answer3]).1
  /\ effects (run pending23 [StdoutData answer3; StdoutData answer2]).2
     = (stdout_data pending23 answer3).2 ++ (stdout_data pending23 answer2).2
  /\ effects (run pending23 [StdoutData answer2; StdoutData answer3]).2
     = (stdout_data pending23 answer2).2 ++ (stdout_data pending23 answer3).2.
Proof.
  apply (responses_commute pending23 answer3 answer2
           AwaitListTools AwaitListTools 3 2
           (Fulfilled (Some (JString "three")))
           (Fulfilled (Some (JString "two"))));
    try (vm_compute; reflexivity).
  lia.
Defined.

Lemma listTools_round_trip_witness :
  (listTools ready).1.2
  = [Write child
       (JSON_stringify (JsonRpcRequest (nextRequestId ready) "tools/list" (JObject []))
        +:+ newline)]
  /\ (listTools ready).2 = Awaiting (nextRequestId ready)
  /\ stdout_data (listTools ready).1.1 tools
     = (set_nextRequestId (nextRequestId ready + 1) ready,
        [Settle AwaitListTools (nextRequestId ready)
           (Fulfilled
              (Js.own [("jsonrpc", JString "2.0"); ("id", JNumber 2 0);
                       ("result", JObject [("tools", JArray [])])]
                 "result"))]).
Proof.
  apply (listTools_round_trip ready child tools
           [("jsonrpc", JString "2.0"); ("id", JNumber 2 0);
            ("result", JObject [("tools", JArray [])])] 2 0);
    try (vm_compute; reflexivity).
  lia.
Defined.

Lemma disconnect_during_handshake_witness :
  let c' := (stdout_data (disconnect handshaking).1 initialize_ok).1 in
  (disconnect handshaking).1 = (close handshaking).1
  /\ (stdout_data (disconnect handshaking).1 initialize_ok).2
     = [Settle AwaitConnect 1 (Fulfilled undefined)]
  /\ isConnected c' = true
  /\ serverProcess c' = None
  /\ listTools c' = (c', [], Failed (Error "Not connected to a server")).
Proof.
  apply (disconnect_during_handshake handshaking initialize_ok
           [("id", JNumber 1 0);
            ("result",
              JObject [("protocolVersion", JString "2024-11-05");
                       ("capabilities", JObject []);
                       ("serverInfo",
                         JObject [("name", JString "x");
                                  ("version", JString "1")])])]
           1 0 1
           (JObject [("protocolVersion", JString "2024-11-05");
                     ("capabilities", JObject []);
                     ("serverInfo",
                       JObject [("name", JString "x");
                                ("version", JString "1")])]));
    try (vm_compute; reflexivity).
  lia.
Defined.

Lemma string_id_never_dispatched_witness :
  let d := handleServerOutput pending23 quoted_id in
  after d = pending23 /\ settled d = None /\ calls (accesses d) = []
  /\ stdout_data pending23 quoted_id = (pending23, []).
Proof.
  apply (string_id_never_dispatched pending23 quoted_id
           [("jsonrpc", JString "2.0"); ("id", JString "2");
            ("result", JObject [])] "2");
    vm_compute; reflexivity.
Defined.


Lemma findServerPath_main_of_local_package_witness :
  @findServerPath reference with_main
  = Some (@path_resolve with_main [@localPackage with_main; "build/server.js"])
  /\ @existsSync with_main (local +:+ "/build/server.js") = false.
Proof.
  split; [ | vm_compute; reflexivity].
  apply (@findServerPath_main_of_local_package reference with_main
           (Text.wire "{'name':'server','main':'build/server.js'}")
           [("name", JString "server"); ("main", JString "build/server.js")]
           "build/server.js");
    try (vm_compute; reflexivity).
  discriminate.
Defined.


Lemma newServer_without_package_witness :
  @findServerPath reference bare = None
  /\ @newServer reference bare ["/tmp"] = None.
Proof.
  apply (@newServer_without_package reference bare ["/tmp"]);
    vm_compute; reflexivity.
Defined.

Lemma newServer_directories_witness :
  exists script dirs,
    @findServerPath reference with_main = Some script
    /\ command {| command := "node";
                  args := [local +:+ "/build/server.js"; "/tmp"; "/srv/data"] |}
       = "node"
    /\ args {| command := "node";
               args := [local +:+ "/build/server.js"; "/tmp"; "/srv/data"] |}
       = script :: dirs
    /\ dirs <> []
    /\ ("--" ∉ dirs)
    /\ dirs = match filter (fun arg => arg <> "--") (drop 2 argv) with
              | [] => ["."]
              | given => given
              end.
Proof.
  apply (@newServer_directories reference with_main argv
           {| command := "node";
              args := [local +:+ "/build/server.js"; "/tmp"; "/srv/data"] |}).
  vm_compute; reflexivity.
Defined.

Lemma instance_name_first_tag_witness :
  Aws.instance_name web
  = default "Unnamed Instance" (Aws.Value {| Aws.Key := Some "Name"; Aws.Value := None |})
  /\ (forall i ts, Aws.Tags i = Some ts ->
        Forall (fun t => Aws.Key t <> Some "Name") ts ->
        Aws.instance_name i = "Unnamed Instance")
  /\ (forall i, Aws.Tags i = None -> Aws.instance_name i = "Unnamed Instance").
Proof.
  apply (instance_name_first_tag web
           [{| Aws.Key := Some "env"; Aws.Value := Some "prod" |}]
           [{| Aws.Key := Some "Name"; Aws.Value := Some "web" |}]
           {| Aws.Key := Some "Name"; Aws.Value := None |}).
  - reflexivity.
  - repeat constructor. discriminate.
  - reflexivity.
Defined.


Lemma callTool_find_ec2_instances_witness :
  Aws.callTool ec2 "find_ec2_instances" (Some (JObject []))
  = match ec2 {| Aws.Filters := [{| Aws.Name := "instance-state-name";
                                    Aws.Values := [Aws.status_text Aws.running] |}] |} with
    | None => inl Aws.SendFailed
    | Some response =>
        inr {| Aws.contents :=
                 [{| Aws.content_type := "text";
                     Aws.text :=
                       Aws.pretty ""
                         (JArray (Aws.listed_json <$> Aws.instances_of response)) |}] |}
    end
  /\ (forall response, Aws.Reservations response = None ->
        Aws.pretty "" (JArray (Aws.listed_json <$> Aws.instances_of response))
        = "[]").
Proof.
  apply (callTool_find_ec2_instances ec2 [] Aws.running).
  left. reflexivity.
Defined.
